(** * Video-to-waveform pipeline: tracking loop and pixel-to-metre calibration

    Shallow embedding of [floats_video_to_waveforms_06_12_2024.py].

    - numpy's [float64] cells are Rocq's primitive binary64 floats, so a
      division by zero yields an infinity or a NaN exactly as numpy does;
    - a Python call either returns or raises: the [py] result type;
    - the functions of the script run in [M], a state-and-exception monad
      whose state holds what the script prints and saves, together with a
      ghost trace of every [tracker.update] result;
    - OpenCV is an external collaborator: the tracker, the interactive
      region selection, the overlay drawing and the keyboard are the
      variables of [Section Pipeline]. *)

From Stdlib Require Import ZArith String.
From Stdlib Require Import Floats.PrimFloat Floats.SpecFloat Floats.FloatOps.
From stdpp Require Import base tactics option list pretty.

Local Open Scope Z_scope.

(** ** Python results *)

Inductive exn : Type :=
  | AttributeError
  | TypeError
  | ValueError
  | IndexError
  | OverflowError
  | Cv2Error.

Inductive py (A : Type) : Type :=
  | Returned (a : A)
  | Raised (e : exn).
Arguments Returned {A} a.
Arguments Raised {A} e.

Definition py_bind {A B : Type} (c : py A) (k : A → py B) : py B :=
  match c with
  | Returned a => k a
  | Raised e => Raised e
  end.

(** ** Floating point helpers *)

Definition f0 : float := 0%float.

(** Python's [int(x)] on a float: truncation towards zero; [ValueError] on a
    NaN and [OverflowError] on an infinity. *)
Definition py_int (x : float) : py Z :=
  match Prim2SF x with
  | S754_nan => Raised ValueError
  | S754_infinity _ => Raised OverflowError
  | S754_zero _ => Returned 0
  | S754_finite s m e =>
      let mag := Z.shiftl (Z.pos m) e in
      Returned (if s then - mag else mag)
  end.

(** A point handed to OpenCV: two integers, each of which must fit a C
    [int]; the binding answers anything else with a [cv2.error]. *)
Definition cv2_point (p : Z * Z) : py (Z * Z) :=
  if (- 2 ^ 31 <=? p.1) && (p.1 <? 2 ^ 31) && (- 2 ^ 31 <=? p.2) && (p.2 <? 2 ^ 31)
  then Returned p
  else Raised Cv2Error.

(** ** numpy arrays of rank 3

    [shape] is numpy's [.shape] attribute; it is kept next to the nested
    cells because an array with no row still has a second dimension. *)

Record ndarray : Type := NDArray {
  shape : nat * nat * nat;
  cells : list (list (list float))
}.

Definition dim0 (a : ndarray) : nat := (shape a).1.1.
Definition dim1 (a : ndarray) : nat := (shape a).1.2.
Definition dim2 (a : ndarray) : nat := (shape a).2.

(** The nested cells agree with the declared shape. *)
Definition wf_ndarray (a : ndarray) : Prop :=
  length (cells a) = dim0 a ∧
  Forall (λ row, length row = dim1 a ∧
                 Forall (λ c : list float, length c = dim2 a) row) (cells a).

(** [a[k, i]]: the coordinate pair of marker [i] in frame [k]. *)
Definition cell2 (a : ndarray) (k i : nat) : option (list float) :=
  cells a !! k ≫= (.!! i).

(** [a[k, i, c]] *)
Definition cell (a : ndarray) (k i c : nat) : option float :=
  cell2 a k i ≫= (.!! c).

(** The size in bytes numpy computes for a [float64] array of shape
    (t, n, d): 8 times the dimensions, those equal to 0 left out. *)
Definition nbytes (t : Z) (n d : nat) : Z :=
  let nz (x : Z) := if x =? 0 then 1 else x in
  8 * nz t * nz (Z.of_nat n) * nz (Z.of_nat d).

(** [np.zeros((t, n, d))]: a negative dimension is a [ValueError], and so
    is a size that does not fit a signed 64-bit integer. An allocation
    that the machine refuses below that size is outside the model. *)
Definition np_zeros (t : Z) (n d : nat) : py ndarray :=
  if t <? 0 then Raised ValueError
  else if 2 ^ 63 - 1 <? nbytes t n d then Raised ValueError
  else Returned (NDArray (Z.to_nat t, n, d)
                   (replicate (Z.to_nat t) (replicate n (replicate d f0)))).

(** Python index normalisation along an axis of length [len]: negative
    indices count from the end, anything else out of range raises. *)
Definition norm_index (len : nat) (k : Z) : py nat :=
  if (0 <=? k) && (k <? Z.of_nat len) then Returned (Z.to_nat k)
  else if (- Z.of_nat len <=? k) && (k <? 0) then Returned (Z.to_nat (k + Z.of_nat len))
  else Raised IndexError.

(** [a[k, i] = (x, y)]: both indices are checked, and the pair must fit the
    last axis. *)
Definition setitem2 (a : ndarray) (k : Z) (i : nat) (v : float * float) : py ndarray :=
  py_bind (norm_index (dim0 a) k) (λ k',
    if decide (i < dim1 a)%nat then
      if decide (dim2 a = 2%nat) then
        Returned (NDArray (shape a)
                    (alter (λ row, <[i := [v.1; v.2]]> row) k' (cells a)))
      else Raised ValueError
    else Raised IndexError).

(** [a / s] for a Python scalar [s]. *)
Definition true_divide (a : ndarray) (s : float) : ndarray :=
  NDArray (shape a)
    ((λ row : list (list float),
        (λ c : list float, (λ x, (x / s)%float) <$> c) <$> row) <$> cells a).

(** [a / v] for a one-dimensional [v]: numpy broadcasting aligns [v] with
    the LAST axis of [a]; the two lengths must agree unless one of them
    is 1. *)
Definition true_divide_vec (a : ndarray) (v : list float) : py ndarray :=
  match v with
  | [s] => Returned (true_divide a s)
  | _ =>
      if decide (length v = dim2 a) then
        Returned (NDArray (shape a)
                    ((λ row : list (list float),
                        (λ c : list float, zip_with PrimFloat.div c v) <$> row)
                       <$> cells a))
      else if decide (dim2 a = 1%nat) then
        Returned (NDArray (dim0 a, dim1 a, length v)
                    ((λ row : list (list float),
                        (λ c : list float,
                           match c with
                           | x :: _ => PrimFloat.div x <$> v
                           | [] => []
                           end) <$> row) <$> cells a))
      else Raised ValueError
  end.

(** [a[:, i, c]] *)
Definition column (a : ndarray) (i c : nat) : py (list float) :=
  if decide (i < dim1 a)%nat then
    if decide (c < dim2 a)%nat then
      Returned (omap (λ row, row !! i ≫= (.!! c)) (cells a))
    else Raised IndexError
  else Raised IndexError.

(** ** Reference points and the derived scale *)

Definition point : Type := float * float.

(** [np.linalg.norm(d, axis=1)] on one row [d = (dx, dy)]:
    [sqrt(add.reduce(d * d))]. *)
Definition linalg_norm (d : point) : float :=
  PrimFloat.sqrt (d.1 * d.1 + d.2 * d.2)%float.

(** [np.linalg.norm(all_points[:,0] - all_points[:,1], axis = 1)], where
    [all_points], of shape (N, 2, 2), holds for every stake its two
    reference points. *)
Definition derive_scale (all_points : list (point * point)) : list float :=
  (λ pq : point * point,
     linalg_norm ((pq.1.1 - pq.2.1)%float, (pq.1.2 - pq.2.2)%float))
  <$> all_points.

(** Lines 149-152 on the list [define_stakes] gave: [np.array] of an empty
    list has a single axis, so [all_points[:,0]] is an [IndexError];
    otherwise the scales are those of [derive_scale]. *)
Definition stake_scales (all_points : list (point * point)) : py (list float) :=
  match all_points with
  | [] => Raised IndexError
  | _ => Returned (derive_scale all_points)
  end.

(** ** What a run prints, saves and observes *)

(** One [tracker.update] result; ghost state, recorded when the call
    returns: the frame index in use, the marker, and what the tracker
    answered. *)
Definition bbox : Type := float * float * float * float.

Record event : Type := Update {
  ev_frame : Z;
  ev_marker : nat;
  ev_success : bool;
  ev_bbox : bbox
}.

Inductive artifact : Type :=
  | Figure (xlabel ylabel : string) (lines : list (string * list float))
  | Npy (a : ndarray).

Record pstate : Type := PState {
  stdout : list string;
  files : list (string * artifact);
  trace : list event
}.

Definition init_state : pstate := PState [] [] [].

Definition M (A : Type) : Type := pstate → pstate * py A.

Definition ret {A : Type} (a : A) : M A := λ s, (s, Returned a).
Definition raise {A : Type} (e : exn) : M A := λ s, (s, Raised e).
Definition bind {A B : Type} (c : M A) (k : A → M B) : M B :=
  λ s, match c s with
       | (s', Returned a) => k a s'
       | (s', Raised e) => (s', Raised e)
       end.
Definition lift {A : Type} (c : py A) : M A := λ s, (s, c).

#[global] Instance M_ret : MRet M := @ret.
#[global] Instance M_bind : MBind M := λ A B k c, bind c k.

Definition print (line : string) : M unit :=
  λ s, (PState (stdout s ++ [line]) (files s) (trace s), Returned tt).
(** [fig.savefig(path)] and [np.save(path, a)]. The file system is taken
    to accept every write; a write that it refuses is outside the model. *)
Definition save (path : string) (x : artifact) : M unit :=
  λ s, (PState (stdout s) (files s ++ [(path, x)]) (trace s), Returned tt).
Definition observe (e : event) : M unit :=
  λ s, (PState (stdout s) (files s) (trace s ++ [e]), Returned tt).

(** ** The frame source

    A [cv2.VideoCapture]: the outcomes of the reads still to come ([None]
    is a read that fails), [CAP_PROP_POS_FRAMES] (index of the frame to be
    decoded next) and [int(CAP_PROP_FRAME_COUNT)], the count the container
    reports, which the frames actually delivered need not match. *)
Record capture (frame : Type) : Type := Capture {
  reads : list (option frame);
  pos_frames : nat;
  frame_count : Z
}.
Arguments Capture {frame} reads pos_frames frame_count.
Arguments reads {frame} c.
Arguments pos_frames {frame} c.
Arguments frame_count {frame} c.

(** [cap.read()]: the frame, if any (its presence is [ret]), and the
    advanced source. *)
Definition cap_read {frame : Type} (cap : capture frame) : option frame * capture frame :=
  match reads cap with
  | Some f :: rest => (Some f, Capture rest (S (pos_frames cap)) (frame_count cap))
  | None :: rest => (None, Capture rest (pos_frames cap) (frame_count cap))
  | [] => (None, cap)
  end.

(** What a caller may pass where the script expects a video: a path, or an
    opened capture. Python does not check which. *)
Inductive pyobj (frame : Type) : Type :=
  | PyStr (s : string)
  | PyCapture (c : capture frame).
Arguments PyStr {frame} s.
Arguments PyCapture {frame} c.

Definition roi : Type := Z * Z * Z * Z.

(** ** The script *)

Section Pipeline.
Context {Frame Tracker : Type}.

(** [cv2.legacy_TrackerCSRT.create()] followed by
    [tracker.init(frame, roi)]. *)
Variable tracker_init : Frame → roi → Tracker.
(** [tracker.update(frame)]: the advanced tracker and [(success, bbox)]. *)
Variable tracker_update : Tracker → Frame → Tracker * (bool * bbox).
(** [cv2.selectROI("Select ROI", frame, False)]: what the user draws when
    asked for the [i]-th region. *)
Variable selectROI : nat → Frame → roi.
(** [cv2.rectangle(frame, pt1, pt2, (0, 0, 255), 2)] on points the binding
    accepts. OpenCV draws in place: after the call the object named
    [frame] is the returned one. *)
Variable rectangle : Frame → Z * Z → Z * Z → Frame.
(** [cv2.waitKey(1)] while the [j]-th displayed frame is on screen. *)
Variable waitKey : nat → Z.
(** [cv2.VideoCapture(video_path)] *)
Variable VideoCapture : string → capture Frame.
(** [orth.define_stakes(frame, num_stakes)[0]], the two reference points of
    every stake: the module is not part of the script, its answer is taken
    as given. *)
Variable define_stakes : option Frame → nat → list (point * point).

(** Lines 116-121: one pass over [enumerate(trackers)] on the current
    frame, starting at marker [i]. The overlay of a marker that was found
    is drawn on [frame] before the next tracker is updated with it. *)
Fixpoint update_trackers (current_frame : Z) (i : nat) (trackers : list Tracker)
    (frame : Frame) (position : ndarray) : M (list Tracker * Frame * ndarray) :=
  match trackers with
  | [] => mret ([], frame, position)
  | tracker :: rest =>
      let '(tracker, (success, b)) := tracker_update tracker frame in
      observe (Update current_frame i success b);;
      if success then
        let '(x, y, w, h) := b in
        position ← lift (setitem2 position current_frame i
                           ((x + w / 2)%float, (y + h / 2)%float));
        x0 ← lift (py_int x);
        y0 ← lift (py_int y);
        x1 ← lift (py_int (x + w)%float);
        y1 ← lift (py_int (y + h)%float);
        pt1 ← lift (cv2_point (x0, y0));
        pt2 ← lift (cv2_point (x1, y1));
        let frame := rectangle frame pt1 pt2 in
        '(rest, frame, position) ← update_trackers current_frame (S i) rest frame position;
        mret (tracker :: rest, frame, position)
      else
        '(rest, frame, position) ← update_trackers current_frame (S i) rest frame position;
        mret (tracker :: rest, frame, position)
  end.

(** Lines 110-126: the [while True] loop, by recursion on the reads the
    source still holds. [pos] is [CAP_PROP_POS_FRAMES] before the read and
    [shown] counts the frames displayed so far. *)
Fixpoint tracking_loop (show : bool) (pending : list (option Frame)) (pos shown : nat)
    (trackers : list Tracker) (position : ndarray) : M ndarray :=
  match pending with
  | [] => mret position
  | None :: _ => mret position
  | Some frame :: pending =>
      let current_frame := Z.of_nat (S pos) - 1 in
      '(trackers, frame, position) ←
        update_trackers current_frame 0 trackers frame position;
      if show then
        (* cv2.imshow('Tracking', frame) *)
        if Z.land (waitKey shown) 255 =? 27 then mret position
        else tracking_loop show pending (S pos) (S shown) trackers position
      else tracking_loop show pending (S pos) shown trackers position
  end.

Definition track_objects_in_video (cap : pyobj Frame) (num_stakes : nat)
    (show : bool) : M (option ndarray) :=
  match cap with
  | PyStr _ => raise AttributeError
  | PyCapture cap =>
      let '(frame, cap) := cap_read cap in
      match frame with
      | None =>
          print "Error: Could not read video frame.";;
          mret None
      | Some frame =>
          let trackers :=
            (λ i, tracker_init frame (selectROI i frame)) <$> seq 0 num_stakes in
          let total_frames := frame_count cap in
          print (pretty total_frames);;
          position ← lift (np_zeros total_frames num_stakes 2);
          position ← tracking_loop show (reads cap) (pos_frames cap) 0
                       trackers position;
          mret (Some position)
      end
  end.

(** [None / ppm] is a [TypeError]. *)
Definition calibrate (position : option ndarray) (ppm : float) : py ndarray :=
  match position with
  | Some a => Returned (true_divide a ppm)
  | None => Raised TypeError
  end.

Definition calibrate_vec (position : option ndarray) (ppm : list float) : py ndarray :=
  match position with
  | Some a => true_divide_vec a ppm
  | None => Raised TypeError
  end.

(** Lines 44-46: one labelled line [position[:,i,1]] per stake. *)
Fixpoint plot_lines (position : ndarray) (stakes : list nat)
    : py (list (string * list float)) :=
  match stakes with
  | [] => Returned []
  | i :: stakes =>
      py_bind (column position i 1) (λ ys,
        py_bind (plot_lines position stakes) (λ rest,
          Returned (("stake" +:+ pretty i, ys) :: rest)))
  end.

Definition rect_floats_video_to_waveform (rectified_video_path : pyobj Frame)
    (ppm : float) (num_stakes : nat) (arr_out_path graph_out_path : string)
    (show : bool) : M ndarray :=
  position ← track_objects_in_video rectified_video_path num_stakes show;
  position ← lift (calibrate position ppm);
  lines ← lift (plot_lines position (seq 0 num_stakes));
  save graph_out_path (Figure "Time" "Position (m)" lines);;
  save arr_out_path (Npy position);;
  mret position.

Definition unrectified_to_waveform (video_path : string) (num_stakes : nat)
    (show : bool) : M ndarray :=
  let cap := VideoCapture video_path in
  let '(frame, cap) := cap_read cap in
  let all_points := define_stakes frame num_stakes in
  ppm ← lift (stake_scales all_points);
  positions ← track_objects_in_video (PyCapture cap) num_stakes show;
  positions ← lift (calibrate_vec positions ppm);
  mret positions.

End Pipeline.

(** ** The remaining callers *)

Section Callers.
Context {Frame Tracker Threshold : Type}.
Variable tracker_init : Frame → roi → Tracker.
Variable tracker_update : Tracker → Frame → Tracker * (bool * bbox).
Variable selectROI : nat → Frame → roi.
Variable rectangle : Frame → Z * Z → Z * Z → Frame.
Variable waitKey : nat → Z.
Variable VideoCapture : string → capture Frame.
Variable define_stakes : option Frame → nat → list (point * point).
(** [orth.rectify_video_by_gradation(video_path, rect_path,
    threshold_condition, show)]: not part of the script; whatever it
    prints, writes or raises is taken as given. *)
Variable rectify_video_by_gradation :
  string → pyobj Frame → Threshold → bool → M unit.

(** Lines 55-77. [rect_path] is handed on as it is, first to the
    rectification and then to [rect_floats_video_to_waveform]. *)
Definition unrectified_to_rect_to_waveform (video_path : string) (ppm : float)
    (num_stakes : nat) (rect_path : pyobj Frame)
    (arr_out_path graph_out_path : string) (threshold_condition : Threshold)
    (show : bool) : M ndarray :=
  rectify_video_by_gradation video_path rect_path threshold_condition show;;
  rect_floats_video_to_waveform tracker_init tracker_update selectROI rectangle
    waitKey rect_path ppm num_stakes arr_out_path graph_out_path show.

(** [a[n:]]: the rows from index [n] on. *)
Definition rows_from (n : nat) (a : ndarray) : ndarray :=
  NDArray ((dim0 a - n)%nat, dim1 a, dim2 a) (drop n (cells a)).

(** Lines 165-185, the script run as a program. *)
Definition main : M unit :=
  let unrectified_path := "videos/test_vid1.mp4" in
  let num_stakes := 2%nat in
  positions ← unrectified_to_waveform tracker_init tracker_update selectROI
                 rectangle waitKey VideoCapture define_stakes
                 unrectified_path num_stakes true;
  lines ← lift (plot_lines (rows_from 2 positions) (seq 0 num_stakes));
  save "graph.png" (Figure "Time" "Position (m)" lines);;
  save "array.npy" (Npy (rows_from 2 positions)).

End Callers.

(** ** Two stand-ins for OpenCV, for running the script on concrete videos *)

(** A scripted tracker bank: frames are mere numbers, every tracker replays
    a prepared list of answers, and drawing leaves the frame as it is. *)
Module Scripted.
Definition Frame : Type := nat.
Definition Tracker : Type := list (bool * bbox).

Definition selectROI (i : nat) (_ : Frame) : roi := (Z.of_nat i, 0, 1, 1).
Definition tracker_init (scripts : list (list (bool * bbox)))
    (_ : Frame) (r : roi) : Tracker :=
  default [] (scripts !! Z.to_nat r.1.1.1).
Definition tracker_update (t : Tracker) (_ : Frame) : Tracker * (bool * bbox) :=
  match t with
  | [] => ([], (false, (f0, f0, f0, f0)))
  | answer :: t => (t, answer)
  end.
Definition rectangle (f : Frame) (_ _ : Z * Z) : Frame := f.
Definition no_key (_ : nat) : Z := -1.
Definition track (scripts : list (list (bool * bbox))) (keys : nat → Z) :=
  track_objects_in_video (tracker_init scripts) tracker_update selectROI
    rectangle keys.
Definition rect_floats (scripts : list (list (bool * bbox))) (keys : nat → Z) :=
  rect_floats_video_to_waveform (tracker_init scripts) tracker_update selectROI
    rectangle keys.
Definition unrectified (scripts : list (list (bool * bbox))) (keys : nat → Z)
    (video : capture Frame) (all_points : list (point * point)) :=
  unrectified_to_waveform (tracker_init scripts) tracker_update selectROI
    rectangle keys (λ _, video) (λ _ _, all_points).

(** A video of [n] readable frames numbered from 0, reporting [count]. *)
Definition video (n : nat) (count : Z) : capture Frame :=
  Capture (Some <$> seq 0 n) 0 count.

Definition box (x y w h : float) : bbox := (x, y, w, h).

(** One marker whose box centre stays at x = 20 and moves from y = 100
    to y = 500 over five frames. *)
Definition rising_marker : list (list (bool * bbox)) :=
  [[(true, box 10 90 20 20); (true, box 10 190 20 20); (true, box 10 290 20 20);
    (true, box 10 390 20 20); (true, box 10 490 20 20)]].

(** One marker, found on frame 1 and lost on frame 2; a second marker
    found on both. *)
Definition found_then_lost : list (list (bool * bbox)) :=
  [[(true, box 1 2 4 6); (false, box 0 0 0 0)];
   [(true, box 5 5 1 1); (true, box 6 6 1 1)]].

(** One marker: lost on frame 1, or found there in a box centred on the
    origin, or found in a box centred on (3, 5). *)
Definition lost_once : list (list (bool * bbox)) := [[(false, box 0 0 0 0)]].
Definition at_origin : list (list (bool * bbox)) := [[(true, box (-1) (-1) 2 2)]].
Definition found_once : list (list (bool * bbox)) := [[(true, box 1 2 4 6)]].

(** Two markers found at (10, 20) and at (30, 40) on the first frame
    their trackers are updated with, and three markers. *)
Definition two_markers : list (list (bool * bbox)) :=
  [[(true, box 10 20 0 0)]; [(true, box 30 40 0 0)]].
Definition three_markers : list (list (bool * bbox)) :=
  two_markers ++ [[(true, box 50 60 0 0)]].

End Scripted.

(** A tracker that looks at pixels: images are grids of grey levels, a
    tracker remembers the level under the corner of its region and reports
    the first pixel of that level; drawing paints the outline of the
    rectangle with level 9. *)
Module Pixels.
Definition Frame : Type := list (list Z).
Definition Tracker : Type := Z * Z * Z.

Fixpoint float_of_nat (n : nat) : float :=
  match n with
  | O => f0
  | S n => (float_of_nat n + 1)%float
  end.

Definition pixel (f : Frame) (x y : Z) : Z :=
  default 0 (f !! Z.to_nat y ≫= (.!! Z.to_nat x)).

Definition selectROI (regions : list roi) (i : nat) (_ : Frame) : roi :=
  default (0, 0, 0, 0) (regions !! i).

Definition tracker_init (f : Frame) (r : roi) : Tracker :=
  let '(x, y, w, h) := r in (pixel f x y, w, h).

Fixpoint find_level (v : Z) (y : nat) (f : Frame) : option (nat * nat) :=
  match f with
  | [] => None
  | row :: f =>
      match list_find (λ p, p = v) row with
      | Some (x, _) => Some (x, y)
      | None => find_level v (S y) f
      end
  end.

Definition tracker_update (t : Tracker) (f : Frame) : Tracker * (bool * bbox) :=
  let '(v, w, h) := t in
  match find_level v 0 f with
  | Some (x, y) =>
      (t, (true, (float_of_nat x, float_of_nat y,
                  float_of_nat (Z.to_nat w), float_of_nat (Z.to_nat h))))
  | None => (t, (false, (f0, f0, f0, f0)))
  end.

Definition on_outline (p1 p2 : Z * Z) (x y : Z) : bool :=
  (p1.1 <=? x) && (x <=? p2.1) && (p1.2 <=? y) && (y <=? p2.2) &&
  ((x =? p1.1) || (x =? p2.1) || (y =? p1.2) || (y =? p2.2)).

Definition rectangle (f : Frame) (p1 p2 : Z * Z) : Frame :=
  imap (λ y row,
          imap (λ x v, if on_outline p1 p2 (Z.of_nat x) (Z.of_nat y) then 9 else v)
               row) f.

Definition track (regions : list roi) :=
  track_objects_in_video tracker_init tracker_update (selectROI regions)
    rectangle (λ _, -1).

(** A 4 x 4 image with a marker of level 1 in the corner and a marker of
    level 2 at (2, 1), and a video showing it twice. *)
Definition still : Frame :=
  [[1; 0; 0; 0];
   [0; 0; 2; 0];
   [0; 0; 0; 0];
   [0; 0; 0; 0]].
Definition still_video : capture Frame := Capture [Some still; Some still] 0 2.
End Pixels.

(** Trackers that find their marker, always in the same box, for a given
    number of frames and lose it from then on. *)
Module Steady.
Definition Frame : Type := nat.
Definition Tracker : Type := nat.

Definition selectROI (i : nat) (_ : Frame) : roi := (Z.of_nat i, 0, 1, 1).
Definition tracker_init (life : nat) (_ : Frame) (_ : roi) : Tracker := life.
Definition tracker_update (t : Tracker) (_ : Frame) : Tracker * (bool * bbox) :=
  match t with
  | O => (O, (false, (f0, f0, f0, f0)))
  | S t => (t, (true, (1, 2, 4, 6)%float))
  end.
Definition rectangle (f : Frame) (_ _ : Z * Z) : Frame := f.
Definition esc_on (j : nat) (shown : nat) : Z :=
  if decide (shown = j) then 27 else -1.

Definition track (life : nat) (keys : nat → Z) :=
  track_objects_in_video (tracker_init life) tracker_update selectROI
    rectangle keys.
Definition rect_floats (life : nat) (keys : nat → Z) :=
  rect_floats_video_to_waveform (tracker_init life) tracker_update selectROI
    rectangle keys.
Definition unrectified (life : nat) (keys : nat → Z) (video : capture Frame)
    (all_points : list (point * point)) :=
  unrectified_to_waveform (tracker_init life) tracker_update selectROI
    rectangle keys (λ _, video) (λ _ _, all_points).
Definition program (life : nat) (keys : nat → Z) (video : capture Frame)
    (all_points : list (point * point)) :=
  main (tracker_init life) tracker_update selectROI rectangle keys
    (λ _, video) (λ _ _, all_points).
End Steady.

(** ** Vocabulary of the statements *)

(** The pair written for a box: its centre, [(x + w/2, y + h/2)]. *)
Definition centre (b : bbox) : float * float :=
  let '(x, y, w, h) := b in ((x + w / 2)%float, (y + h / 2)%float).

(** The part of the state a tracking run never touches, and the events it
    adds to the trace. *)
Definition extends (s s' : pstate) (evs : list event) : Prop :=
  stdout s' = stdout s ∧ files s' = files s ∧ trace s' = trace s ++ evs.

(** What one pass over [n] trackers guarantees, on frame index [cf], from
    marker [i] on: the events it records, when it can raise [IndexError],
    and which cells of the buffer it leaves alone. *)
Definition pass_post {X : Type} (cf : Z) (i n : nat) (pos : ndarray)
    (s s' : pstate) (r : py (list X * ndarray)) : Prop :=
  ∃ evs, extends s s' evs ∧
    Forall (λ e, ev_frame e = cf ∧ (i ≤ ev_marker e < i + n)%nat) evs ∧
    (r = Raised IndexError →
     ¬ (cf < Z.of_nat (dim0 pos) ∧ (i + n ≤ dim1 pos)%nat)) ∧
    ∀ ts' pos', r = Returned (ts', pos') →
      length ts' = n ∧ shape pos' = shape pos ∧
      (wf_ndarray pos → wf_ndarray pos') ∧
      (∀ k j, k ≠ Z.to_nat cf ∨ (j < i)%nat → cell2 pos' k j = cell2 pos k j) ∧
      Forall (λ e, ev_success e = false →
                   cell2 pos' (Z.to_nat cf) (ev_marker e)
                   = cell2 pos (Z.to_nat cf) (ev_marker e)) evs.

(** The result of [update_trackers] with the frame it hands back left out. *)
Definition forget_frame {Frame Tracker : Type}
    (r : py (list Tracker * Frame * ndarray)) : py (list Tracker * ndarray) :=
  match r with
  | Returned (ts, _, pos) => Returned (ts, pos)
  | Raised e => Raised e
  end.

(** What the loop guarantees when entered with [CAP_PROP_POS_FRAMES = p],
    [n] reads pending and [m] trackers. *)
Definition loop_post (p n m : nat) (pos : ndarray) (s s' : pstate)
    (r : py ndarray) : Prop :=
  ∃ evs, extends s s' evs ∧
    Forall (λ e, Z.of_nat p ≤ ev_frame e < Z.of_nat (p + n) ∧
                 (ev_marker e < m)%nat) evs ∧
    (r = Raised IndexError → ¬ (p + n ≤ dim0 pos ∧ m ≤ dim1 pos)%nat) ∧
    ∀ a, r = Returned a →
      shape a = shape pos ∧
      (wf_ndarray pos → wf_ndarray a) ∧
      (∀ k j, (k < p)%nat → cell2 a k j = cell2 pos k j) ∧
      Forall (λ e, ev_success e = false →
                   cell2 a (Z.to_nat (ev_frame e)) (ev_marker e)
                   = cell2 pos (Z.to_nat (ev_frame e)) (ev_marker e)) evs.

(** The value of cell [(k, i)] of [np.zeros((t, n, 2))]: what a cell holds
    as long as nothing is written to it. *)
Definition unset_cell (t n k i : nat) : option (list float) :=
  if decide (k < t ∧ i < n)%nat then Some [f0; f0] else None.

(** What [track_objects_in_video] guarantees once the first frame was read,
    [c] being the source after that read. *)
Definition track_post {Frame : Type} (c : capture Frame) (num_stakes : nat)
    (s s' : pstate) (r : py (option ndarray)) : Prop :=
  stdout s' = stdout s ++ [pretty (frame_count c)] ∧ files s' = files s ∧
  ∃ evs, trace s' = trace s ++ evs ∧
    Forall (λ e, Z.of_nat (pos_frames c) ≤ ev_frame e
                   < Z.of_nat (pos_frames c + length (reads c)) ∧
                 (ev_marker e < num_stakes)%nat) evs ∧
    (r = Raised IndexError →
     ¬ Z.of_nat (pos_frames c + length (reads c)) ≤ frame_count c) ∧
    ∀ oa, r = Returned oa → ∃ a, oa = Some a ∧
      0 ≤ frame_count c ∧
      shape a = (Z.to_nat (frame_count c), num_stakes, 2%nat) ∧
      wf_ndarray a ∧
      (∀ k j, (k < pos_frames c)%nat →
              cell2 a k j = unset_cell (Z.to_nat (frame_count c)) num_stakes k j) ∧
      Forall (λ e, ev_success e = false →
                   cell2 a (Z.to_nat (ev_frame e)) (ev_marker e)
                   = unset_cell (Z.to_nat (frame_count c)) num_stakes
                       (Z.to_nat (ev_frame e)) (ev_marker e)) evs.

(** The cell written for a box. *)
Definition centre_cell (b : bbox) : list float := [(centre b).1; (centre b).2].

(** A box whose outline can be drawn: Python's [int] accepts its corners
    (no NaN, no infinity) and OpenCV accepts the integers (they fit a C
    [int]). *)
Definition box_drawable (b : bbox) : Prop :=
  let '(x, y, w, h) := b in
  ∃ x0 y0 x1 y1 : Z,
    py_int x = Returned x0 ∧ py_int y = Returned y0 ∧
    py_int (x + w)%float = Returned x1 ∧ py_int (y + h)%float = Returned y1 ∧
    cv2_point (x0, y0) = Returned (x0, y0) ∧
    cv2_point (x1, y1) = Returned (x1, y1).

(** The (frame, marker) pairs of [m] passes over [n] trackers, the first
    pass at frame index [p]: pass after pass, marker after marker. *)
Definition passes (p m n : nat) : list (Z * nat) :=
  k ← seq p m; (λ i, (Z.of_nat k, i)) <$> seq 0 n.

(** The reads a loop gets through before the source fails it. *)
Fixpoint readable {Frame : Type} (pending : list (option Frame)) : nat :=
  match pending with
  | Some _ :: pending => S (readable pending)
  | _ => O
  end.

(** * Properties *)

(** ** Arrays *)

Lemma wf_true_divide (a : ndarray) (s : float) :
  wf_ndarray a → wf_ndarray (true_divide a s).
Proof.
  intros [Hlen Hrows]. split; simpl.
  - by rewrite length_fmap.
  - apply Forall_fmap. eapply Forall_impl; [exact Hrows|].
    intros row [Hrow Hcells]. simpl. split.
    + by rewrite length_fmap.
    + apply Forall_fmap. eapply Forall_impl; [exact Hcells|].
      intros c Hc. simpl. by rewrite length_fmap.
Qed.

Lemma cell_true_divide (a : ndarray) (s : float) (k i c : nat) :
  cell (true_divide a s) k i c = (λ x, (x / s)%float) <$> cell a k i c.
Proof.
  unfold cell, cell2, true_divide. simpl.
  rewrite list_lookup_fmap. destruct (cells a !! k) as [row|]; simpl; [|done].
  rewrite list_lookup_fmap. destruct (row !! i) as [xy|]; simpl; [|done].
  by rewrite list_lookup_fmap.
Qed.

Lemma np_zeros_inv (t : Z) (n d : nat) (a : ndarray) :
  np_zeros t n d = Returned a →
  0 ≤ t ∧ shape a = (Z.to_nat t, n, d) ∧ wf_ndarray a ∧
  ∀ k i, cell2 a k i =
         if decide (k < Z.to_nat t ∧ i < n)%nat then Some (replicate d f0) else None.
Proof.
  unfold np_zeros. destruct (Z.ltb_spec t 0) as [|Ht]; [done|].
  destruct (2 ^ 63 - 1 <? nbytes t n d); [done|].
  intros [= <-]. split; [done|]. split; [done|]. split.
  - split; simpl; [by rewrite length_replicate|].
    apply Forall_replicate. split; [by rewrite length_replicate|].
    apply Forall_replicate. by rewrite length_replicate.
  - intros k i. unfold cell2. simpl. case_decide as Hki.
    + destruct Hki as [Hk Hi].
      rewrite lookup_replicate_2 by done. simpl.
      by rewrite lookup_replicate_2.
    + destruct (decide (k < Z.to_nat t)%nat) as [Hk|Hk].
      * rewrite lookup_replicate_2 by done. simpl.
        apply lookup_replicate_None. lia.
      * replace (replicate (Z.to_nat t) (replicate n (replicate d f0)) !! k)
          with (@None (list (list float))); [done|].
        symmetry. apply lookup_replicate_None. lia.
Qed.

Lemma norm_index_nonneg (len : nat) (k : Z) (k' : nat) :
  0 ≤ k → norm_index len k = Returned k' → k' = Z.to_nat k ∧ k < Z.of_nat len.
Proof.
  intros Hk. unfold norm_index.
  destruct (Z.leb_spec 0 k); [|lia].
  destruct (Z.ltb_spec k (Z.of_nat len)); simpl.
  - intros [= <-]. done.
  - destruct (Z.ltb_spec k 0); [lia|]. rewrite andb_false_r. done.
Qed.

Lemma setitem2_inv (a a' : ndarray) (k : Z) (i : nat) (v : float * float) :
  0 ≤ k → setitem2 a k i v = Returned a' →
  k < Z.of_nat (dim0 a) ∧ shape a' = shape a ∧
  (wf_ndarray a → wf_ndarray a') ∧
  ∀ r j, r ≠ Z.to_nat k ∨ j ≠ i → cell2 a' r j = cell2 a r j.
Proof.
  intros Hk. unfold setitem2.
  destruct (norm_index (dim0 a) k) as [k'|] eqn:Hidx; simpl; [|done].
  apply norm_index_nonneg in Hidx as [-> Hlt]; [|done].
  case_decide as Hi; [|done]. case_decide as Hd; [|done].
  intros [= <-]. split; [done|]. split; [done|]. split.
  - intros [Hlen Hrows]. split; simpl.
    + by rewrite length_alter.
    + apply Forall_alter; [done|]. intros row _ [Hrow Hcells]. split.
      * by rewrite length_insert.
      * apply Forall_insert; [done|]. unfold dim2 in *. simpl. by rewrite Hd.
  - intros r j Hrj. unfold cell2. simpl.
    destruct (decide (r = Z.to_nat k)) as [->|Hr].
    + rewrite list_lookup_alter_eq.
      destruct (cells a !! Z.to_nat k) as [row|]; simpl; [|done].
      apply list_lookup_insert_ne. destruct Hrj; congruence.
    + by rewrite list_lookup_alter_ne.
Qed.

Lemma setitem2_lookup (a a' : ndarray) (k : Z) (i : nat) (v : float * float) :
  0 ≤ k → wf_ndarray a → setitem2 a k i v = Returned a' →
  cell2 a' (Z.to_nat k) i = Some [v.1; v.2].
Proof.
  intros Hk [Hlen Hrows]. unfold setitem2.
  destruct (norm_index (dim0 a) k) as [k'|] eqn:Hidx; simpl; [|done].
  apply norm_index_nonneg in Hidx as [-> Hlt]; [|done].
  case_decide as Hi; [|done]. case_decide as Hd; [|done].
  intros [= <-]. unfold cell2. simpl. rewrite list_lookup_alter_eq.
  destruct (lookup_lt_is_Some_2 (cells a) (Z.to_nat k)) as [row Hrow]; [lia|].
  rewrite Hrow. simpl. apply list_lookup_insert_eq.
  by destruct (Forall_lookup_1 _ _ _ _ Hrows Hrow) as [-> _].
Qed.

Lemma setitem2_no_IndexError (a : ndarray) (k : Z) (i : nat) (v : float * float) :
  0 ≤ k < Z.of_nat (dim0 a) → (i < dim1 a)%nat →
  setitem2 a k i v ≠ Raised IndexError.
Proof.
  intros Hk Hi. unfold setitem2, norm_index.
  destruct (Z.leb_spec 0 k); [|lia].
  destruct (Z.ltb_spec k (Z.of_nat (dim0 a))); [|lia]. simpl.
  case_decide; [|done]. by case_decide.
Qed.

(** ** Running a step of the monad *)

Lemma bind_inv {A B : Type} (c : M A) (k : A → M B) (s s' : pstate) (r : py B) :
  (c ≫= k) s = (s', r) →
  (∃ s1 a, c s = (s1, Returned a) ∧ k a s1 = (s', r)) ∨
  (∃ e, c s = (s', Raised e) ∧ r = Raised e).
Proof.
  unfold mbind, M_bind, bind. destruct (c s) as [s1 [a|e]].
  - intros Hk. left. eauto.
  - intros [= <- <-]. right. eauto.
Qed.

Lemma lift_bind_inv {A B : Type} (c : py A) (k : A → M B) (s s' : pstate) (r : py B) :
  (lift c ≫= k) s = (s', r) →
  (∃ a, c = Returned a ∧ k a s = (s', r)) ∨
  (∃ e, c = Raised e ∧ s' = s ∧ r = Raised e).
Proof.
  intros H. apply bind_inv in H as [(s1 & a & [= <- ->] & Hk)|(e & [= <- ->] & ->)];
    [left|right]; eauto.
Qed.

Lemma extends_refl (s : pstate) : extends s s [].
Proof. unfold extends. by rewrite app_nil_r. Qed.

Lemma extends_trans (s1 s2 s3 : pstate) (evs1 evs2 : list event) :
  extends s1 s2 evs1 → extends s2 s3 evs2 → extends s1 s3 (evs1 ++ evs2).
Proof.
  intros (? & ? & H1) (? & ? & H2). unfold extends.
  rewrite H2, H1, app_assoc. split_and!; congruence.
Qed.

Lemma observe_extends (e : event) (s : pstate) :
  ∃ s1, observe e s = (s1, Returned tt) ∧ extends s s1 [e].
Proof. eexists. split; [done|]. done. Qed.

(** Division by a vector fails on the lengths alone. *)
Lemma true_divide_vec_Raised (a : ndarray) (v : list float) (e : exn) :
  true_divide_vec a v = Raised e ↔
  e = ValueError ∧ length v ≠ 1%nat ∧ length v ≠ dim2 a ∧ dim2 a ≠ 1%nat.
Proof.
  unfold true_divide_vec.
  destruct v as [|x [|y v]]; simpl; repeat case_decide; split;
    try done; try (intros [= <-]; done); try (intros (-> & ? & ? & ?); done).
Qed.

Lemma py_int_not_IndexError (x : float) : py_int x ≠ Raised IndexError.
Proof. unfold py_int. by destruct (Prim2SF x). Qed.

Lemma cv2_point_not_IndexError (p : Z * Z) : cv2_point p ≠ Raised IndexError.
Proof. unfold cv2_point. by case_match. Qed.

(** ** The tracking loop *)

Lemma pass_post_nil {X : Type} (cf : Z) (i : nat) (pos : ndarray) (s : pstate) :
  pass_post (X:=X) cf i 0 pos s s (Returned ([], pos)).
Proof.
  exists []. split; [apply extends_refl|]. split; [done|]. split; [done|].
  intros ts' pos' [= <- <-]. done.
Qed.

(** A pass that stops on an exception other than [IndexError], or on an
    [IndexError] the buffer's shape accounts for, after recording [b]. *)
Lemma pass_post_raise {X : Type} (cf : Z) (i n : nat) (pos : ndarray)
    (s s1 : pstate) (sc : bool) (b : bbox) (e : exn) :
  extends s s1 [Update cf i sc b] →
  (e = IndexError → ¬ (cf < Z.of_nat (dim0 pos) ∧ (i < dim1 pos)%nat)) →
  pass_post (X:=X) cf i (S n) pos s s1 (Raised e).
Proof.
  intros Hext He. exists [Update cf i sc b]. split; [done|]. split.
  - apply Forall_singleton. simpl. lia.
  - split; [|done]. intros [= ->]. specialize (He eq_refl). lia.
Qed.

(** The pass over [t :: ts] from the pass over [ts]: the head's event is
    recorded, its cell is written or left alone, and the rest follows. *)
Lemma pass_post_cons {X : Type} (cf : Z) (i n : nat) (pos pos1 : ndarray)
    (s s1 s' : pstate) (sc : bool) (b : bbox) (t : X)
    (r' : py (list X * ndarray)) :
  extends s s1 [Update cf i sc b] →
  shape pos1 = shape pos →
  (wf_ndarray pos → wf_ndarray pos1) →
  (∀ k j, k ≠ Z.to_nat cf ∨ j ≠ i → cell2 pos1 k j = cell2 pos k j) →
  (sc = false → pos1 = pos) →
  pass_post cf (S i) n pos1 s1 s' r' →
  pass_post cf i (S n) pos s s'
    (match r' with
     | Returned (ts', pos') => Returned (t :: ts', pos')
     | Raised e => Raised e
     end).
Proof.
  intros Hext Hshape Hwf Hcells Hfail (evs & Hext' & Hevs & Hidx & Hret).
  exists ([Update cf i sc b] ++ evs). split; [by eapply extends_trans|].
  assert (dim0 pos1 = dim0 pos ∧ dim1 pos1 = dim1 pos) as [Hd0 Hd1]
    by (unfold dim0, dim1; by rewrite Hshape).
  split; [|split].
  - apply Forall_app. split.
    + apply Forall_singleton. simpl. lia.
    + eapply Forall_impl; [exact Hevs|]. intros e. simpl. lia.
  - destruct r' as [[ts' pos']|e]; [done|]. intros [= ->].
    specialize (Hidx eq_refl). rewrite Hd0, Hd1 in Hidx. lia.
  - destruct r' as [[ts' pos']|e]; [|done]. intros ? ? [= <- <-].
    destruct (Hret ts' pos' eq_refl) as (Hlen & Hsh & Hwf' & Hcells' & Hlost).
    split; [simpl; lia|]. split; [congruence|]. split; [tauto|]. split.
    + intros k j Hkj. rewrite Hcells' by lia. apply Hcells. lia.
    + apply Forall_app. split.
      * apply Forall_singleton. simpl. intros ->.
        rewrite Hcells' by lia. by rewrite Hfail.
      * apply Forall_and in Hevs as [_ Hevs].
        pose proof (conj Hevs Hlost) as Hboth. apply Forall_and in Hboth.
        eapply Forall_impl; [exact Hboth|]. intros e [Hm Hl] Hs. simpl in *.
        rewrite Hl by done. apply Hcells. lia.
Qed.

Lemma loop_post_done (p n m : nat) (pos : ndarray) (s : pstate) :
  loop_post p n m pos s s (Returned pos).
Proof.
  exists []. split; [apply extends_refl|]. split; [done|]. split; [done|].
  by intros a [= <-].
Qed.

Lemma loop_post_raise {X : Type} (p n m : nat) (pos : ndarray) (s s1 : pstate)
    (e : exn) :
  pass_post (X:=X) (Z.of_nat p) 0 m pos s s1 (Raised e) →
  loop_post p (S n) m pos s s1 (Raised e).
Proof.
  intros (evs & Hext & Hevs & Hidx & _). exists evs. split; [done|]. split.
  - eapply Forall_impl; [exact Hevs|]. intros ev. simpl. lia.
  - split; [|done]. intros [= ->]. specialize (Hidx eq_refl). simpl in Hidx. lia.
Qed.

Lemma loop_post_step {X : Type} (p n m : nat) (pos pos1 : ndarray)
    (s s1 s' : pstate) (ts1 : list X) (r : py ndarray) :
  pass_post (Z.of_nat p) 0 m pos s s1 (Returned (ts1, pos1)) →
  loop_post (S p) n (length ts1) pos1 s1 s' r →
  loop_post p (S n) m pos s s' r.
Proof.
  intros (evs1 & Hext1 & Hevs1 & _ & Hret1) (evs2 & Hext2 & Hevs2 & Hidx2 & Hret2).
  destruct (Hret1 ts1 pos1 eq_refl) as (Hlen & Hsh & Hwf & Hcells & Hlost).
  rewrite Nat2Z.id in Hcells, Hlost. rewrite Hlen in *.
  assert (dim0 pos1 = dim0 pos ∧ dim1 pos1 = dim1 pos) as [Hd0 Hd1]
    by (unfold dim0, dim1; by rewrite Hsh).
  exists (evs1 ++ evs2). split; [by eapply extends_trans|]. split; [|split].
  - apply Forall_app. split.
    + eapply Forall_impl; [exact Hevs1|]. intros e. simpl. lia.
    + eapply Forall_impl; [exact Hevs2|]. intros e. simpl. lia.
  - intros He. specialize (Hidx2 He). rewrite Hd0, Hd1 in Hidx2. lia.
  - intros a Ha. destruct (Hret2 a Ha) as (Hsh2 & Hwf2 & Hcells2 & Hlost2).
    split; [congruence|]. split; [tauto|]. split.
    + intros k j Hk. rewrite Hcells2 by lia. apply Hcells. lia.
    + apply Forall_app. split.
      * pose proof (conj Hevs1 Hlost) as Hboth. apply Forall_and in Hboth.
        eapply Forall_impl; [exact Hboth|]. intros e [[Hf _] Hl] Hs.
        rewrite Hf, Nat2Z.id. rewrite Hcells2 by lia. by apply Hl.
      * pose proof (conj Hevs2 Hlost2) as Hboth. apply Forall_and in Hboth.
        eapply Forall_impl; [exact Hboth|]. intros e [[Hf _] Hl] Hs.
        rewrite Hl by done. apply Hcells. lia.
Qed.

Lemma cap_read_Some {Frame : Type} (c c' : capture Frame) (f : Frame) :
  cap_read c = (Some f, c') →
  frame_count c' = frame_count c ∧ pos_frames c' = S (pos_frames c) ∧
  reads c = Some f :: reads c'.
Proof.
  unfold cap_read. destruct (reads c) as [|[g|] rest] eqn:Hreads; [done| |done].
  by intros [= <- <-].
Qed.

(** A run that returns an array read its first frame, created the buffer
    and went through the loop. *)
Lemma track_objects_in_video_loop_inv {Frame Tracker : Type}
    (tracker_init : Frame → roi → Tracker)
    (tracker_update : Tracker → Frame → Tracker * (bool * bbox))
    (selectROI : nat → Frame → roi) (rectangle : Frame → Z * Z → Z * Z → Frame)
    (waitKey : nat → Z) (c : capture Frame) (num_stakes : nat)
    (show : bool) (s s' : pstate) (a : ndarray) :
  track_objects_in_video tracker_init tracker_update selectROI rectangle
    waitKey (PyCapture c) num_stakes show s = (s', Returned (Some a)) →
  ∃ f c' pos s1,
    cap_read c = (Some f, c') ∧
    np_zeros (frame_count c') num_stakes 2 = Returned pos ∧
    tracking_loop tracker_update rectangle waitKey show (reads c') (pos_frames c') 0
      ((λ i, tracker_init f (selectROI i f)) <$> seq 0 num_stakes) pos s1
    = (s', Returned a).
Proof.
  intros Hrun. unfold track_objects_in_video in Hrun.
  destruct (cap_read c) as [[f|] c'] eqn:Hread; [|done].
  apply bind_inv in Hrun as [(s1 & [] & _ & Hrun)|(e & _ & [=])].
  apply lift_bind_inv in Hrun as [(pos & Hzeros & Hrun)|(e & _ & _ & [=])].
  apply bind_inv in Hrun as [(s2 & a' & Hloop & [= <- <-])|(e & _ & [=])].
  by exists f, c', pos, s1.
Qed.

Section Facts.
Context {Frame Tracker : Type}.
Variable tracker_init : Frame → roi → Tracker.
Variable tracker_update : Tracker → Frame → Tracker * (bool * bbox).
Variable selectROI : nat → Frame → roi.
Variable rectangle : Frame → Z * Z → Z * Z → Frame.
Variable waitKey : nat → Z.

Lemma update_trackers_spec (cf : Z) (Hcf : 0 ≤ cf) (ts : list Tracker) :
  ∀ (i : nat) (f : Frame) (pos : ndarray) (s s' : pstate)
    (r : py (list Tracker * Frame * ndarray)),
  update_trackers tracker_update rectangle cf i ts f pos s = (s', r) →
  pass_post cf i (length ts) pos s s' (forget_frame r).
Proof.
  induction ts as [|t ts IH]; intros i f pos s s' r Hrun.
  - injection Hrun as <- <-. apply pass_post_nil.
  - cbn [update_trackers] in Hrun.
    destruct (tracker_update t f) as [t' [success b]].
    apply bind_inv in Hrun as [(s1 & [] & Hobs & Hrun)|(e & [=] & _)].
    destruct (observe_extends (Update cf i success b) s) as (s1' & Hobs' & Hext1).
    rewrite Hobs in Hobs'. injection Hobs' as <-.
    destruct success.
    + destruct b as [[[x y] w] h].
      apply lift_bind_inv in Hrun as [(pos1 & Hset & Hrun)|(e & Hset & -> & ->)].
      2:{ eapply pass_post_raise; [done|]. intros -> [? ?].
          eapply setitem2_no_IndexError; [| |exact Hset]; [lia|done]. }
      apply setitem2_inv in Hset as (_ & Hshape & Hwf & Hcells); [|done].
      do 4 (apply lift_bind_inv in Hrun as [(? & ? & Hrun)|(e & Hint & -> & ->)];
            [|eapply pass_post_raise; [done|]; intros ->;
              by apply py_int_not_IndexError in Hint]).
      do 2 (apply lift_bind_inv in Hrun as [(? & ? & Hrun)|(e & Hpt & -> & ->)];
            [|eapply pass_post_raise; [done|]; intros ->;
              by apply cv2_point_not_IndexError in Hpt]).
      apply bind_inv in Hrun as [(s2 & [[ts2 f2] pos2] & Hrec & Hret)|(e & Hrec & ->)].
      * injection Hret as <- <-. apply IH in Hrec.
        eapply (pass_post_cons _ _ _ _ _ _ _ _ _ _ t') in Hrec; try done.
      * apply IH in Hrec.
        eapply (pass_post_cons _ _ _ _ _ _ _ _ _ _ t') in Hrec; try done.
    + apply bind_inv in Hrun as [(s2 & [[ts2 f2] pos2] & Hrec & Hret)|(e & Hrec & ->)].
      * injection Hret as <- <-. apply IH in Hrec.
        eapply (pass_post_cons _ _ _ _ _ _ _ _ _ _ t') in Hrec; try done.
      * apply IH in Hrec.
        eapply (pass_post_cons _ _ _ _ _ _ _ _ _ _ t') in Hrec; try done.
Qed.

Lemma tracking_loop_spec (show : bool) (pending : list (option Frame)) :
  ∀ (p shown : nat) (ts : list Tracker) (pos : ndarray) (s s' : pstate)
    (r : py ndarray),
  tracking_loop tracker_update rectangle waitKey show pending p shown ts pos s
    = (s', r) →
  loop_post p (length pending) (length ts) pos s s' r.
Proof.
  induction pending as [|[f|] pending IH]; intros p shown ts pos s s' r Hrun.
  - injection Hrun as <- <-. apply loop_post_done.
  - cbn [tracking_loop] in Hrun.
    replace (Z.of_nat (S p) - 1) with (Z.of_nat p) in Hrun by lia.
    apply bind_inv in Hrun as [(s1 & [[ts1 f1] pos1] & Hpass & Hrun)|(e & Hpass & ->)].
    + apply update_trackers_spec in Hpass; [|lia]. simpl in Hpass.
      eapply loop_post_step; [exact Hpass|].
      destruct show; [destruct (Z.land (waitKey shown) 255 =? 27)|].
      * injection Hrun as <- <-. apply loop_post_done.
      * by eapply IH.
      * by eapply IH.
    + apply update_trackers_spec in Hpass; [|lia].
      by eapply loop_post_raise.
  - injection Hrun as <- <-. apply loop_post_done.
Qed.

Lemma track_objects_in_video_first_read_fails (c c' : capture Frame)
    (num_stakes : nat) (show : bool) (s : pstate) :
  cap_read c = (None, c') →
  track_objects_in_video tracker_init tracker_update selectROI rectangle
    waitKey (PyCapture c) num_stakes show s
  = (PState (stdout s ++ ["Error: Could not read video frame."]) (files s) (trace s),
     Returned None).
Proof. intros Hread. unfold track_objects_in_video. by rewrite Hread. Qed.

Lemma track_objects_in_video_spec (c c' : capture Frame) (f : Frame)
    (num_stakes : nat) (show : bool) (s s' : pstate) (r : py (option ndarray)) :
  cap_read c = (Some f, c') →
  track_objects_in_video tracker_init tracker_update selectROI rectangle
    waitKey (PyCapture c) num_stakes show s = (s', r) →
  track_post c' num_stakes s s' r.
Proof.
  intros Hread Hrun. unfold track_objects_in_video in Hrun. rewrite Hread in Hrun.
  apply bind_inv in Hrun as [(s1 & [] & [= <-] & Hrun)|(e & [=] & _)].
  unfold track_post. simpl.
  apply lift_bind_inv in Hrun as [(pos & Hzeros & Hrun)|(e & Hzeros & -> & ->)].
  2:{ split; [done|]. split; [done|]. exists []. rewrite app_nil_r.
      split; [done|]. split; [done|]. split; [|done]. intros [= ->].
      unfold np_zeros in Hzeros. destruct (frame_count c' <? 0); [done|].
      by destruct (2 ^ 63 - 1 <? nbytes (frame_count c') num_stakes 2). }
  apply np_zeros_inv in Hzeros as (Hcount & Hshape & Hwf & Hcells).
  assert (dim0 pos = Z.to_nat (frame_count c') ∧ dim1 pos = num_stakes) as [Hd0 Hd1]
    by (unfold dim0, dim1; by rewrite Hshape).
  assert (∃ s2 r2, tracking_loop tracker_update rectangle waitKey show (reads c')
            (pos_frames c') 0
            ((λ i, tracker_init f (selectROI i f)) <$> seq 0 num_stakes) pos
            (PState (stdout s ++ [pretty (frame_count c')]) (files s) (trace s))
            = (s2, r2) ∧ s' = s2 ∧
            r = match r2 with Returned a => Returned (Some a) | Raised e => Raised e end)
    as (s2 & r2 & Hloop & -> & ->).
  { apply bind_inv in Hrun as [(s2 & a & Hloop & [= <- <-])|(e & Hloop & ->)];
      eauto. }
  apply tracking_loop_spec in Hloop as (evs & (Hout & Hfiles & Htrace) & Hevs & Hidx & Hret).
  rewrite length_fmap, length_seq in Hevs, Hidx. simpl in *.
  split; [done|]. split; [done|]. exists evs. split; [done|]. split; [done|]. split.
  - destruct r2 as [a|e]; [done|]. intros [= ->]. specialize (Hidx eq_refl).
    rewrite Hd0, Hd1 in Hidx. lia.
  - destruct r2 as [a|e]; [|done]. intros oa [= <-]. exists a. split; [done|].
    destruct (Hret a eq_refl) as (Hsh & Hwf' & Hkeep & Hlost).
    split; [done|]. split; [congruence|]. split; [tauto|]. split.
    + intros k j Hk. rewrite Hkeep by done. apply Hcells.
    + eapply Forall_impl; [exact Hlost|]. intros e He Hs. simpl in *.
      rewrite He by done. apply Hcells.
Qed.

Lemma track_objects_in_video_array_inv (cap : pyobj Frame) (num_stakes : nat)
    (show : bool) (s s' : pstate) (a : ndarray) :
  track_objects_in_video tracker_init tracker_update selectROI rectangle
    waitKey cap num_stakes show s = (s', Returned (Some a)) →
  ∃ c f c', cap = PyCapture c ∧ cap_read c = (Some f, c') ∧
            track_post c' num_stakes s s' (Returned (Some a)).
Proof.
  intros Hrun. destruct cap as [path|c]; [done|].
  destruct (cap_read c) as [[f|] c'] eqn:Hread.
  - exists c, f, c'. split; [done|]. split; [done|].
    by eapply track_objects_in_video_spec.
  - by rewrite (track_objects_in_video_first_read_fails _ _ _ _ _ Hread) in Hrun.
Qed.

Lemma plot_lines_ok (a : ndarray) (stakes : list nat) :
  Forall (λ i, (i < dim1 a)%nat) stakes → (1 < dim2 a)%nat →
  ∃ lines, plot_lines a stakes = Returned lines.
Proof.
  intros Hstakes Hd. induction Hstakes as [|i stakes Hi _ [lines IH]].
  - by eexists.
  - simpl. unfold column. rewrite !decide_True by done. simpl.
    rewrite IH. simpl. by eexists.
Qed.

(** [rect_floats_video_to_waveform] once tracking has returned an array:
    the array is divided by [ppm], plotted, saved and returned. *)
Lemma rect_floats_video_to_waveform_run (cap : pyobj Frame) (ppm : float)
    (num_stakes : nat) (arr_out_path graph_out_path : string) (show : bool)
    (s s1 : pstate) (traj : ndarray) :
  track_objects_in_video tracker_init tracker_update selectROI rectangle
    waitKey cap num_stakes show s = (s1, Returned (Some traj)) →
  ∃ lines,
    rect_floats_video_to_waveform tracker_init tracker_update selectROI
      rectangle waitKey cap ppm num_stakes arr_out_path graph_out_path show s
    = (PState (stdout s1)
         (files s1 ++ [(graph_out_path, Figure "Time" "Position (m)" lines);
                       (arr_out_path, Npy (true_divide traj ppm))])
         (trace s1),
       Returned (true_divide traj ppm)).
Proof.
  intros Hrun.
  destruct (track_objects_in_video_array_inv _ _ _ _ _ _ Hrun)
    as (c & f & c' & -> & Hread & Hpost).
  destruct Hpost as (_ & _ & evs & _ & _ & _ & Hret).
  destruct (Hret _ eq_refl) as (a & [= <-] & _ & Hshape & _).
  destruct (plot_lines_ok (true_divide traj ppm) (seq 0 num_stakes)) as [lines Hlines].
  { apply Forall_seq. intros j Hj. unfold dim1. simpl. rewrite Hshape. simpl. lia. }
  { unfold dim2. simpl. rewrite Hshape. simpl. lia. }
  exists lines. unfold rect_floats_video_to_waveform.
  unfold mbind, M_bind, bind. rewrite Hrun. simpl. rewrite Hlines. simpl.
  by rewrite <- app_assoc.
Qed.

Lemma rect_floats_video_to_waveform_inv (cap : pyobj Frame) (ppm : float)
    (num_stakes : nat) (arr_out_path graph_out_path : string) (show : bool)
    (s s' : pstate) (w : ndarray) :
  rect_floats_video_to_waveform tracker_init tracker_update selectROI
    rectangle waitKey cap ppm num_stakes arr_out_path graph_out_path show s
  = (s', Returned w) →
  ∃ s1 traj,
    track_objects_in_video tracker_init tracker_update selectROI rectangle
      waitKey cap num_stakes show s = (s1, Returned (Some traj)) ∧
    w = true_divide traj ppm.
Proof.
  unfold rect_floats_video_to_waveform. intros Hrun.
  apply bind_inv in Hrun as [(s1 & [traj|] & Htrack & Hrun)|(e & _ & [=])].
  - exists s1, traj. split; [done|].
    destruct (rect_floats_video_to_waveform_run cap ppm num_stakes arr_out_path
                graph_out_path show s s1 traj Htrack) as [lines Hfull].
    apply lift_bind_inv in Hrun as [(w0 & [= <-] & Hrun)|(e & [=] & _)].
    apply lift_bind_inv in Hrun as [(lines0 & _ & Hrun)|(e & _ & _ & [=])].
    by injection Hrun as _ <-.
  - by apply lift_bind_inv in Hrun as [(w0 & [=] & _)|(e & _ & _ & [=])].
Qed.

(** ** What each tracker is handed *)

(** One step of a pass that returns: the head tracker is updated on the
    frame as it stands; when it succeeds its pair is written and every
    later tracker is handed the frame with this marker's outline drawn on
    it. *)
Lemma update_trackers_cons_inv (cf : Z) (i : nat) (t : Tracker)
    (ts ts' : list Tracker) (f f' : Frame) (pos pos' : ndarray) (s s' : pstate) :
  update_trackers tracker_update rectangle cf i (t :: ts) f pos s
    = (s', Returned (ts', f', pos')) →
  ∃ s1 pos1 f1 rest,
    ts' = (tracker_update t f).1 :: rest ∧
    extends s s1 [Update cf i (tracker_update t f).2.1 (tracker_update t f).2.2] ∧
    update_trackers tracker_update rectangle cf (S i) ts f1 pos1 s1
      = (s', Returned (rest, f', pos')) ∧
    if (tracker_update t f).2.1
    then setitem2 pos cf i (centre (tracker_update t f).2.2) = Returned pos1 ∧
         ∃ p q, f1 = rectangle f p q
    else pos1 = pos ∧ f1 = f.
Proof.
  intros Hrun. cbn [update_trackers] in Hrun.
  destruct (tracker_update t f) as [t' [success b]]. simpl.
  apply bind_inv in Hrun as [(s1 & [] & Hobs & Hrun)|(e & _ & [=])].
  destruct (observe_extends (Update cf i success b) s) as (s1' & Hobs' & Hext1).
  rewrite Hobs in Hobs'. injection Hobs' as <-.
  destruct success.
  - destruct b as [[[x y] w] h].
    apply lift_bind_inv in Hrun as [(pos1 & Hset & Hrun)|(e & _ & _ & [=])].
    apply lift_bind_inv in Hrun as [(x0 & _ & Hrun)|(e & _ & _ & [=])].
    apply lift_bind_inv in Hrun as [(y0 & _ & Hrun)|(e & _ & _ & [=])].
    apply lift_bind_inv in Hrun as [(x1 & _ & Hrun)|(e & _ & _ & [=])].
    apply lift_bind_inv in Hrun as [(y1 & _ & Hrun)|(e & _ & _ & [=])].
    apply lift_bind_inv in Hrun as [(pt1 & _ & Hrun)|(e & _ & _ & [=])].
    apply lift_bind_inv in Hrun as [(pt2 & _ & Hrun)|(e & _ & _ & [=])].
    apply bind_inv in Hrun as [(s2 & [[rest f2] pos2] & Hrec & Hret)|(e & _ & [=])].
    injection Hret as <- <- <- <-.
    exists s1, pos1, (rectangle f pt1 pt2), rest. eauto 10.
  - apply bind_inv in Hrun as [(s2 & [[rest f2] pos2] & Hrec & Hret)|(e & _ & [=])].
    injection Hret as <- <- <- <-.
    exists s1, pos, f, rest. eauto 10.
Qed.

Section Independence.
(** Drawing that no tracker can see. *)
Hypothesis rectangle_invisible : ∀ f p q, rectangle f p q = f.

(** Then a pass treats every marker on its own: tracker [j] is updated on
    the frame as read, and cell [(cf, i + j)] receives its centre, or is
    left alone when it is lost. *)
Lemma update_trackers_each_marker (cf : Z) (Hcf : 0 ≤ cf) (ts : list Tracker) :
  ∀ (i : nat) (f f' : Frame) (pos pos' : ndarray) (ts' : list Tracker)
    (s s' : pstate),
  wf_ndarray pos →
  update_trackers tracker_update rectangle cf i ts f pos s
    = (s', Returned (ts', f', pos')) →
  ∀ j t, ts !! j = Some t →
    ts' !! j = Some (tracker_update t f).1 ∧
    cell2 pos' (Z.to_nat cf) (i + j)
    = if (tracker_update t f).2.1
      then Some [(centre (tracker_update t f).2.2).1;
                 (centre (tracker_update t f).2.2).2]
      else cell2 pos (Z.to_nat cf) (i + j).
Proof.
  induction ts as [|t0 ts IH]; intros i f f' pos pos' ts' s s' Hwf Hrun j t Hj;
    [done|].
  apply update_trackers_cons_inv in Hrun
    as (s1 & pos1 & f1 & rest & -> & _ & Hrec & Hhead).
  assert (f1 = f ∧ (wf_ndarray pos1) ∧
          (∀ m, m ≠ i → cell2 pos1 (Z.to_nat cf) m = cell2 pos (Z.to_nat cf) m) ∧
          cell2 pos1 (Z.to_nat cf) i
          = if (tracker_update t0 f).2.1
            then Some [(centre (tracker_update t0 f).2.2).1;
                       (centre (tracker_update t0 f).2.2).2]
            else cell2 pos (Z.to_nat cf) i) as (-> & Hwf1 & Hother & Hhere).
  { destruct ((tracker_update t0 f).2.1).
    - destruct Hhead as [Hset (p & q & ->)].
      pose proof (setitem2_lookup _ _ _ _ _ Hcf Hwf Hset) as Hlook.
      apply setitem2_inv in Hset as (_ & _ & Hwf1 & Hcells); [|done].
      split; [apply rectangle_invisible|]. split; [tauto|]. split; [|done].
      intros m Hm. apply Hcells. by right.
    - by destruct Hhead as [-> ->]. }
  pose proof (update_trackers_spec cf Hcf ts (S i) f pos1 s1 s' _ Hrec)
    as (evs & _ & _ & _ & Hret).
  destruct (Hret rest pos' eq_refl) as (_ & _ & _ & Hkeep & _).
  destruct j as [|j]; simpl in Hj.
  - injection Hj as <-. split; [done|].
    rewrite Nat.add_0_r, Hkeep by (right; lia). done.
  - destruct (IH (S i) f f' pos1 pos' rest s1 s' Hwf1 Hrec j t Hj) as [Hts Hcell].
    split; [done|]. replace (i + S j)%nat with (S i + j)%nat by lia.
    rewrite Hcell. destruct ((tracker_update t f).2.1); [done|].
    apply Hother. lia.
Qed.

Lemma tracking_loop_each_marker (show : bool) (pending : list (option Frame))
    (i : nat) :
  ∀ (p shown : nat) (ts : list Tracker) (t : Tracker) (pos posi a ai : ndarray)
    (s s' si si' : pstate),
  ts !! i = Some t → wf_ndarray pos → wf_ndarray posi →
  (∀ k, cell2 pos k i = cell2 posi k 0) →
  tracking_loop tracker_update rectangle waitKey show pending p shown ts pos s
    = (s', Returned a) →
  tracking_loop tracker_update rectangle waitKey show pending p shown [t] posi si
    = (si', Returned ai) →
  ∀ k, cell2 a k i = cell2 ai k 0.
Proof.
  induction pending as [|[f|] pending IH];
    intros p shown ts t pos posi a ai s s' si si' Hts Hwf Hwfi Hcells Hrun Hruni.
  - by injection Hrun as <- <-; injection Hruni as <- <-.
  - cbn [tracking_loop] in Hrun, Hruni.
    replace (Z.of_nat (S p) - 1) with (Z.of_nat p) in Hrun, Hruni by lia.
    apply bind_inv in Hrun as [(s1 & [[ts1 f1] pos1] & Hpass & Hrun)|(e & _ & [=])].
    apply bind_inv in Hruni as [(si1 & [[tsi1 fi1] posi1] & Hpassi & Hruni)|(e & _ & [=])].
    assert (0 ≤ Z.of_nat p) as Hp by lia.
    destruct (update_trackers_each_marker _ Hp _ _ _ _ _ _ _ _ _ Hwf Hpass i t Hts)
      as [Hts1 Hcell].
    destruct (update_trackers_each_marker _ Hp _ _ _ _ _ _ _ _ _ Hwfi Hpassi 0%nat t eq_refl)
      as [Htsi1 Hcelli].
    apply update_trackers_spec in Hpass as (evs & _ & _ & _ & Hret); [|done].
    apply update_trackers_spec in Hpassi as (evsi & _ & _ & _ & Hreti); [|done].
    destruct (Hret ts1 pos1 eq_refl) as (_ & _ & Hwf1 & Hkeep & _).
    destruct (Hreti tsi1 posi1 eq_refl) as (Hlen & _ & Hwfi1 & Hkeepi & _).
    assert (tsi1 = [(tracker_update t f).1]) as ->.
    { destruct tsi1 as [|x [|y tsi1]]; simpl in Hlen, Htsi1; [done| |done].
      by injection Htsi1 as ->. }
    assert (∀ k, cell2 pos1 k i = cell2 posi1 k 0) as Hcells1.
    { intros k. destruct (decide (k = Z.to_nat (Z.of_nat p))) as [->|Hk].
      - simpl in Hcell, Hcelli. rewrite Hcell, Hcelli.
        destruct ((tracker_update t f).2.1); [done|]. apply Hcells.
      - rewrite Hkeep, Hkeepi by (by left). apply Hcells. }
    destruct show; [destruct (Z.land (waitKey shown) 255 =? 27)|].
    + injection Hrun as _ Ha. injection Hruni as _ Hai. subst a ai. exact Hcells1.
    + eapply IH; [exact Hts1| | |exact Hcells1|exact Hrun|exact Hruni]; tauto.
    + eapply IH; [exact Hts1| | |exact Hcells1|exact Hrun|exact Hruni]; tauto.
  - by injection Hrun as <- <-; injection Hruni as <- <-.
Qed.

(** X17. With drawing that no tracker can see, the positions recorded for
    marker [i] in a run over all markers are those recorded when marker
    [i] is tracked alone from the same region on the same video. *)
Theorem markers_independent_when_drawing_is_invisible (c : capture Frame)
    (num_stakes i : nat) (show : bool) (s s' si si' : pstate) (a ai : ndarray) :
  (i < num_stakes)%nat →
  track_objects_in_video tracker_init tracker_update selectROI rectangle
    waitKey (PyCapture c) num_stakes show s = (s', Returned (Some a)) →
  track_objects_in_video tracker_init tracker_update (λ _, selectROI i) rectangle
    waitKey (PyCapture c) 1 show si = (si', Returned (Some ai)) →
  ∀ k, cell2 a k i = cell2 ai k 0.
Proof.
  intros Hi Hrun Hruni.
  apply track_objects_in_video_loop_inv in Hrun
    as (f & c' & pos & s1 & Hread & Hzeros & Hloop).
  apply track_objects_in_video_loop_inv in Hruni
    as (fi & ci' & posi & si1 & Hreadi & Hzerosi & Hloopi).
  rewrite Hread in Hreadi. injection Hreadi as <- <-.
  apply np_zeros_inv in Hzeros as (_ & _ & Hwf & Hcells).
  apply np_zeros_inv in Hzerosi as (_ & _ & Hwfi & Hcellsi).
  eapply (tracking_loop_each_marker show (reads c') i);
    [ |exact Hwf|exact Hwfi| |exact Hloop|exact Hloopi].
  - rewrite list_lookup_fmap.
    by rewrite (proj2 (lookup_seq 0 num_stakes i i) (conj eq_refl Hi)).
  - intros k. rewrite Hcells, Hcellsi.
    repeat case_decide; try done; lia.
Qed.
End Independence.

Local Abbreviation track :=
  (track_objects_in_video tracker_init tracker_update selectROI rectangle waitKey).
Local Abbreviation rect_floats :=
  (rect_floats_video_to_waveform tracker_init tracker_update selectROI
     rectangle waitKey).

(** ** Calibration by a global scale *)

(** C1. For every pixel trajectory that tracking returns and every
    [ppm > 0], [rect_floats_video_to_waveform] returns the trajectory
    divided elementwise by [ppm]: the result has the shape of the
    trajectory and each of its cells is the trajectory's cell divided by
    [ppm]. *)
Theorem global_calibration_divides_elementwise (cap : pyobj Frame) (ppm : float)
    (num_stakes : nat) (arr_out_path graph_out_path : string) (show : bool)
    (s s1 : pstate) (traj : ndarray) :
  (0 <? ppm)%float = true →
  track cap num_stakes show s = (s1, Returned (Some traj)) →
  ∃ s' w,
    rect_floats cap ppm num_stakes arr_out_path graph_out_path show s
      = (s', Returned w) ∧
    shape w = shape traj ∧
    (wf_ndarray traj → wf_ndarray w) ∧
    ∀ k i c, cell w k i c = (λ x, (x / ppm)%float) <$> cell traj k i c.
Proof.
  intros _ Hrun.
  destruct (rect_floats_video_to_waveform_run cap ppm num_stakes arr_out_path
              graph_out_path show s s1 traj Hrun) as [lines Hfull].
  eexists _, (true_divide traj ppm). split; [exact Hfull|].
  split; [done|]. split; [apply wf_true_divide|].
  intros k i c. apply cell_true_divide.
Qed.

(** ** Shape of the result *)

(** C6. Every array returned by [track_objects_in_video], and every
    array returned by [rect_floats_video_to_waveform], has shape
    (total_frame_count, num_stakes, 2), whatever the trackers answered:
    the reported frame count many rows, [num_stakes] pairs in each. *)
Theorem positions_shape_is_count_by_stakes_by_two (cap : pyobj Frame)
    (ppm : float) (num_stakes : nat) (arr_out_path graph_out_path : string)
    (show : bool) (s s' : pstate) (a : ndarray) :
  track cap num_stakes show s = (s', Returned (Some a)) ∨
  rect_floats cap ppm num_stakes arr_out_path graph_out_path show s
    = (s', Returned a) →
  ∃ c, cap = PyCapture c ∧
    Z.of_nat (dim0 a) = frame_count c ∧
    shape a = (Z.to_nat (frame_count c), num_stakes, 2%nat) ∧
    length (cells a) = Z.to_nat (frame_count c) ∧
    Forall (λ row, length row = num_stakes ∧
                   Forall (λ xy : list float, length xy = 2%nat) row) (cells a).
Proof.
  intros Hor.
  assert (∀ s' traj, track cap num_stakes show s = (s', Returned (Some traj)) →
            ∃ c, cap = PyCapture c ∧ 0 ≤ frame_count c ∧
              shape traj = (Z.to_nat (frame_count c), num_stakes, 2%nat) ∧
              wf_ndarray traj) as Htrack.
  { intros s1 traj Hrun.
    destruct (track_objects_in_video_array_inv _ _ _ _ _ _ Hrun)
      as (c & f & c' & -> & Hread & Hpost).
    apply cap_read_Some in Hread as (Hcount & _ & _).
    destruct Hpost as (_ & _ & evs & _ & _ & _ & Hret).
    destruct (Hret _ eq_refl) as (a0 & [= <-] & Hnonneg & Hshape & Hwf & _).
    exists c. rewrite <- Hcount. done. }
  assert (∃ c, cap = PyCapture c ∧ 0 ≤ frame_count c ∧
            shape a = (Z.to_nat (frame_count c), num_stakes, 2%nat) ∧
            wf_ndarray a) as (c & -> & Hnonneg & Hshape & Hlen & Hrows).
  { destruct Hor as [Hrun|Hrun]; [by eapply Htrack|].
    apply rect_floats_video_to_waveform_inv in Hrun as (s1 & traj & Hrun & ->).
    destruct (Htrack _ _ Hrun) as (c & -> & ? & ? & ?).
    exists c. split; [done|]. split; [done|]. split; [done|].
    by apply wf_true_divide. }
  unfold dim0, dim1, dim2 in *. rewrite Hshape in *. simpl in *.
  exists c. split; [done|]. split; [lia|]. done.
Qed.

(** ** Failure to read the first frame *)


(** ** Cells that are never written *)

(** C10. In every run of [track_objects_in_video] that returns an array,
    no tracker update is recorded for frame index 0 (every update is at
    an index of at least 1), and row 0 of the array still holds the
    zeros it was created with. *)
Theorem frame_zero_row_is_never_written (cap : pyobj Frame) (num_stakes : nat)
    (show : bool) (s s' : pstate) (a : ndarray) :
  track cap num_stakes show s = (s', Returned (Some a)) →
  (∃ evs, trace s' = trace s ++ evs ∧ Forall (λ e, 1 ≤ ev_frame e) evs) ∧
  (∀ i, cell2 a 0 i = unset_cell (dim0 a) num_stakes 0 i) ∧
  (∀ i c x, cell a 0 i c = Some x → x = f0).
Proof.
  intros Hrun.
  destruct (track_objects_in_video_array_inv _ _ _ _ _ _ Hrun)
    as (c & f & c' & -> & Hread & Hpost).
  apply cap_read_Some in Hread as (_ & Hpos & _).
  destruct Hpost as (_ & _ & evs & Htrace & Hevs & _ & Hret).
  destruct (Hret _ eq_refl) as (a0 & [= <-] & _ & Hshape & _ & Hkeep & _).
  assert (∀ i, cell2 a 0 i = unset_cell (dim0 a) num_stakes 0 i) as Hrow.
  { intros i. unfold dim0. rewrite Hshape. simpl. apply Hkeep. lia. }
  split; [|split; [exact Hrow|]].
  - exists evs. split; [done|]. eapply Forall_impl; [exact Hevs|].
    intros e. simpl. lia.
  - intros i j x. unfold cell. rewrite Hrow. unfold unset_cell.
    case_decide; [|done]. simpl.
    destruct j as [|[|j]]; cbn; intros Hx; by simplify_eq.
Qed.

(** C5 (as the code has it). When a tracker reports failure for marker
    [i] on frame [k], with [k] inside the buffer, cell [(k, i)] of the
    returned array holds [0.0, 0.0], the value the buffer was created
    with; the run still returns the whole array. No other value marks
    the loss. *)
Theorem lost_marker_cell_keeps_its_zeros (cap : pyobj Frame) (num_stakes : nat)
    (show : bool) (s' : pstate) (a : ndarray) (n : nat) (e : event) :
  track cap num_stakes show init_state = (s', Returned (Some a)) →
  trace s' !! n = Some e → ev_success e = false →
  (Z.to_nat (ev_frame e) < dim0 a)%nat →
  cell2 a (Z.to_nat (ev_frame e)) (ev_marker e) = Some [f0; f0].
Proof.
  intros Hrun He Hlost Hin. apply list_elem_of_lookup_2 in He.
  destruct (track_objects_in_video_array_inv _ _ _ _ _ _ Hrun)
    as (c & f & c' & -> & Hread & Hpost).
  destruct Hpost as (_ & _ & evs & Htrace & Hevs & _ & Hret).
  destruct (Hret _ eq_refl) as (a0 & [= <-] & _ & Hshape & _ & _ & Hunset).
  simpl in Htrace. rewrite Htrace in He.
  rewrite Forall_forall in Hevs, Hunset.
  destruct (Hevs e He) as [_ Hmarker]. rewrite (Hunset e He Hlost).
  unfold dim0 in Hin. rewrite Hshape in Hin. simpl in Hin.
  unfold unset_cell. by rewrite decide_True.
Qed.

(** ** Indices used by the loop *)

(** C9 (as the code has it). When the reported frame count is at least
    the position the source can reach (its position plus the reads it
    still holds), in particular when the count over-shoots, every
    tracker update of the loop, hence every write into the buffer, is at
    a frame index in [0, total_frame_count), and the run does not end in
    an [IndexError]. *)
Theorem writes_in_bounds_unless_count_undershoots (c : capture Frame)
    (num_stakes : nat) (show : bool) (s' : pstate) (r : py (option ndarray)) :
  Z.of_nat (pos_frames c + length (reads c)) ≤ frame_count c →
  track (PyCapture c) num_stakes show init_state = (s', r) →
  r ≠ Raised IndexError ∧
  Forall (λ e, 0 ≤ ev_frame e < frame_count c) (trace s').
Proof.
  intros Hcount Hrun. destruct (cap_read c) as [[f|] c'] eqn:Hread.
  - pose proof (track_objects_in_video_spec _ _ _ _ _ _ _ _ Hread Hrun) as Hpost.
    apply cap_read_Some in Hread as (Hfc & Hpos & Hreads).
    destruct Hpost as (_ & _ & evs & Htrace & Hevs & Hidx & _).
    rewrite Hreads in Hcount. simpl in Hcount, Htrace.
    rewrite Hfc, Hpos in *. split.
    + intros ->. apply Hidx; [done|]. lia.
    + rewrite Htrace. eapply Forall_impl; [exact Hevs|]. intros e. simpl. lia.
  - rewrite (track_objects_in_video_first_read_fails _ _ _ _ _ Hread) in Hrun.
    by injection Hrun as <- <-.
Qed.

(** ** No validation of the scale *)

(** C4 (as the code has it). The scale is never validated: whatever
    [ppm] is, zero and negative values included, a run whose tracking
    returned a trajectory returns that trajectory divided by [ppm] (in
    binary64: infinities and NaN for a zero scale). Division by a
    derived scale vector can only fail on the vector's length, never on
    its entries. *)
Theorem calibration_accepts_any_scale (cap : pyobj Frame) (ppm : float)
    (num_stakes : nat) (arr_out_path graph_out_path : string) (show : bool)
    (s s1 : pstate) (traj : ndarray) :
  track cap num_stakes show s = (s1, Returned (Some traj)) →
  (rect_floats cap ppm num_stakes arr_out_path graph_out_path show s).2
    = Returned (true_divide traj ppm) ∧
  ∀ v v' : list float, length v = length v' →
    ∀ e, true_divide_vec traj v = Raised e →
         e = ValueError ∧ true_divide_vec traj v' = Raised ValueError.
Proof.
  intros Hrun. split.
  - destruct (rect_floats_video_to_waveform_run cap ppm num_stakes arr_out_path
                graph_out_path show s s1 traj Hrun) as [lines ->]. done.
  - intros v v' Hlen e Hv. apply true_divide_vec_Raised in Hv as (-> & Hv).
    split; [done|]. apply true_divide_vec_Raised. split; [done|].
    by rewrite <- Hlen.
Qed.
End Facts.

(** ** The derived scale *)


(** ** Division by the derived scale vector *)

(** C2. On two markers found at (10, 20) and (30, 40) on frame 2, with
    derived scales 5 and 10, [unrectified_to_waveform] returns
    (10/5, 20/10) and (30/5, 40/10): the scale vector is matched against
    the two coordinates, not against the two markers, so the results are
    not the pixel coordinates of marker i divided by scale i. With three
    markers the division raises. *)
Theorem scale_vector_divides_coordinates_not_markers :
  let all_points := [((0, 0), (3, 4)); ((0, 0), (6, 8))]%float in
  let run := Scripted.unrectified Scripted.two_markers Scripted.no_key
               (Scripted.video 3 3) all_points "videos/test_vid1.mp4" 2 false
               init_state in
  derive_scale all_points = [5; 10]%float ∧
  (∃ w, run.2 = Returned w ∧
     cell2 w 2 0 = Some [10 / 5; 20 / 10]%float ∧
     cell2 w 2 0 ≠ Some [10 / 5; 20 / 5]%float ∧
     cell2 w 2 1 = Some [30 / 5; 40 / 10]%float ∧
     cell2 w 2 1 ≠ Some [30 / 10; 40 / 10]%float) ∧
  (Scripted.unrectified Scripted.three_markers Scripted.no_key
     (Scripted.video 3 3) (all_points ++ [((0, 0), (5, 12))%float])
     "videos/test_vid1.mp4" 3 false init_state).2 = Raised ValueError.
Proof.
  cbv zeta. split; [by vm_compute|]. split; [|by vm_compute].
  eexists. split; [by vm_compute|].
  split; [by vm_compute|]. split.
  - intros H.
    apply (f_equal (λ o, match o with
                         | Some [_; y] => (y =? 2)%float
                         | _ => false
                         end)) in H.
    by vm_compute in H.
  - split; [by vm_compute|]. intros H.
    apply (f_equal (λ o, match o with
                         | Some [x; _] => (x =? 6)%float
                         | _ => false
                         end)) in H.
    by vm_compute in H.
Qed.

(** ** Markers on a shared frame *)

(** C3. With a tracker that looks at pixels, marker 1 is found at
    (2.5, 1.5) on frame 1 when it is tracked alone, and is lost on the
    same frame, from the same region, when marker 0 is tracked before it:
    the outline drawn for marker 0 is on the frame handed to marker 1's
    tracker. *)
Theorem overlay_of_one_marker_reaches_the_next_tracker :
  let together := Pixels.track [(0, 0, 2, 2); (2, 1, 1, 1)]
                    (PyCapture Pixels.still_video) 2 false init_state in
  let alone := Pixels.track [(2, 1, 1, 1)]
                 (PyCapture Pixels.still_video) 1 false init_state in
  (∃ a, alone.2 = Returned (Some a) ∧ cell2 a 1 0 = Some [2.5; 1.5]%float ∧
        ev_success <$> trace alone.1 = [true]) ∧
  (∃ a, together.2 = Returned (Some a) ∧ cell2 a 1 1 = Some [f0; f0] ∧
        ev_success <$> trace together.1 = [true; false]).
Proof. cbv zeta. split; eexists; by vm_compute. Qed.

(** ** Inputs on which the specification's wording fails *)

(** C4 fails: with [ppm = 0] the run returns an array of NaN and
    infinities instead of stopping with an error, and so does the
    per-marker path when the two reference points of a stake coincide. *)
Lemma zero_scale_is_divided_by :
  (Scripted.rect_floats Scripted.found_once Scripted.no_key
     (PyCapture (Scripted.video 2 2)) 0 1 "wave_measurements.npy"
     "position_graphs.png" false init_state).2
  = Returned (NDArray (2, 1, 2)%nat [[[nan; nan]]; [[infinity; infinity]]]) ∧
  derive_scale [((7, 7), (7, 7))%float] = [f0] ∧
  (Scripted.unrectified Scripted.found_once Scripted.no_key
     (Scripted.video 3 3) [((7, 7), (7, 7))%float] "videos/test_vid1.mp4" 1 false
     init_state).2
  = Returned (NDArray (3, 1, 2)%nat
                [[[nan; nan]]; [[nan; nan]]; [[infinity; infinity]]]).
Proof. by vm_compute. Qed.

(** C5 fails: a run in which the marker is lost on frame 1 and a run in
    which it is found there, centred on the origin, return the same
    array. *)
Lemma lost_cell_equals_tracked_origin :
  let lost := Scripted.track Scripted.lost_once Scripted.no_key
                (PyCapture (Scripted.video 2 2)) 1 false init_state in
  let found := Scripted.track Scripted.at_origin Scripted.no_key
                 (PyCapture (Scripted.video 2 2)) 1 false init_state in
  ev_success <$> trace lost.1 = [false] ∧
  ev_success <$> trace found.1 = [true] ∧
  lost.2 = found.2 ∧
  ∃ a, found.2 = Returned (Some a) ∧ cell2 a 1 0 = Some [f0; f0].
Proof. cbv zeta. repeat split; try by vm_compute. eexists. by vm_compute. Qed.


(** C9 fails: a source that reports one frame and delivers two makes the
    loop write at frame index 1, outside [0, 1); numpy answers with an
    [IndexError]. *)
Lemma undershooting_count_writes_out_of_range :
  let run := Scripted.track Scripted.found_once Scripted.no_key
               (PyCapture (Scripted.video 2 1)) 1 false init_state in
  run.2 = Raised IndexError ∧
  ∃ e, trace run.1 = [e] ∧ ev_success e = true ∧ ¬ (0 ≤ ev_frame e < 1).
Proof.
  cbv zeta. split; [by vm_compute|]. eexists. split; [by vm_compute|].
  split; [done|]. simpl. lia.
Qed.

(** ** The theorems at work on concrete videos *)

Lemma global_calibration_divides_elementwise_witness :
  (0 <? 100)%float = true ∧
  ∃ s1 traj,
    Scripted.track Scripted.rising_marker Scripted.no_key
      (PyCapture (Scripted.video 6 6)) 1 true init_state
    = (s1, Returned (Some traj)) ∧
    ∃ s' w,
      Scripted.rect_floats Scripted.rising_marker Scripted.no_key
        (PyCapture (Scripted.video 6 6)) 100 1 "wave_measurements.npy"
        "position_graphs.png" true init_state = (s', Returned w) ∧
      shape w = shape traj ∧
      (wf_ndarray traj → wf_ndarray w) ∧
      ∀ k i c, cell w k i c = (λ x, (x / 100)%float) <$> cell traj k i c.
Proof.
  split; [reflexivity|]. eexists _, _. split; [vm_compute; reflexivity|].
  eapply (global_calibration_divides_elementwise
           (Scripted.tracker_init Scripted.rising_marker) Scripted.tracker_update
           Scripted.selectROI Scripted.rectangle Scripted.no_key
           (PyCapture (Scripted.video 6 6)) 100 1);
    [reflexivity|vm_compute; reflexivity].
Defined.

Lemma positions_shape_is_count_by_stakes_by_two_witness :
  ∃ s' a,
    Scripted.track Scripted.found_then_lost Scripted.no_key
      (PyCapture (Scripted.video 3 3)) 2 false init_state
    = (s', Returned (Some a)) ∧
    ∃ c, PyCapture (Scripted.video 3 3) = PyCapture c ∧
      Z.of_nat (dim0 a) = frame_count c ∧
      shape a = (Z.to_nat (frame_count c), 2%nat, 2%nat) ∧
      length (cells a) = Z.to_nat (frame_count c) ∧
      Forall (λ row, length row = 2%nat ∧
                     Forall (λ xy : list float, length xy = 2%nat) row) (cells a).
Proof.
  eexists _, _. split; [vm_compute; reflexivity|].
  eapply (positions_shape_is_count_by_stakes_by_two
           (Scripted.tracker_init Scripted.found_then_lost) Scripted.tracker_update
           Scripted.selectROI Scripted.rectangle Scripted.no_key
           (PyCapture (Scripted.video 3 3)) 1 2 "" "" false init_state).
  left. vm_compute. reflexivity.
Defined.


Lemma frame_zero_row_is_never_written_witness :
  ∃ s' a,
    Scripted.track Scripted.found_then_lost Scripted.no_key
      (PyCapture (Scripted.video 3 3)) 2 false init_state
    = (s', Returned (Some a)) ∧
    (∃ evs, trace s' = trace init_state ++ evs ∧ Forall (λ e, 1 ≤ ev_frame e) evs) ∧
    (∀ i, cell2 a 0 i = unset_cell (dim0 a) 2 0 i) ∧
    (∀ i c x, cell a 0 i c = Some x → x = f0).
Proof.
  eexists _, _. split; [vm_compute; reflexivity|].
  eapply (frame_zero_row_is_never_written
           (Scripted.tracker_init Scripted.found_then_lost) Scripted.tracker_update
           Scripted.selectROI Scripted.rectangle Scripted.no_key
           (PyCapture (Scripted.video 3 3)) 2 false init_state).
  vm_compute. reflexivity.
Defined.

Lemma lost_marker_cell_keeps_its_zeros_witness :
  ∃ s' a e,
    Scripted.track Scripted.found_then_lost Scripted.no_key
      (PyCapture (Scripted.video 3 3)) 2 false init_state
    = (s', Returned (Some a)) ∧
    trace s' !! 2%nat = Some e ∧ ev_success e = false ∧
    (Z.to_nat (ev_frame e) < dim0 a)%nat ∧
    (ev_frame e, ev_marker e) = (2, 0%nat) ∧
    cell2 a (Z.to_nat (ev_frame e)) (ev_marker e) = Some [f0; f0].
Proof.
  eexists _, _, _. split; [vm_compute; reflexivity|].
  split; [vm_compute; reflexivity|]. split; [reflexivity|].
  split; [vm_compute; lia|]. split; [reflexivity|].
  eapply (lost_marker_cell_keeps_its_zeros
           (Scripted.tracker_init Scripted.found_then_lost) Scripted.tracker_update
           Scripted.selectROI Scripted.rectangle Scripted.no_key
           (PyCapture (Scripted.video 3 3)) 2 false _ _ 2%nat);
    [vm_compute; reflexivity|vm_compute; reflexivity|reflexivity|vm_compute; lia].
Defined.

Lemma writes_in_bounds_unless_count_undershoots_witness :
  Z.of_nat (pos_frames (Scripted.video 3 5) + length (reads (Scripted.video 3 5))) ≤ 5 ∧
  ∃ s' r,
    Scripted.track Scripted.found_then_lost Scripted.no_key
      (PyCapture (Scripted.video 3 5)) 2 false init_state = (s', r) ∧
    r ≠ Raised IndexError ∧
    Forall (λ e, 0 ≤ ev_frame e < frame_count (Scripted.video 3 5)) (trace s').
Proof.
  split; [vm_compute; discriminate|].
  eexists _, _. split; [vm_compute; reflexivity|].
  eapply (writes_in_bounds_unless_count_undershoots
           (Scripted.tracker_init Scripted.found_then_lost) Scripted.tracker_update
           Scripted.selectROI Scripted.rectangle Scripted.no_key
           (Scripted.video 3 5) 2 false);
    [vm_compute; discriminate|vm_compute; reflexivity].
Defined.

Lemma calibration_accepts_any_scale_witness :
  ∃ s1 traj,
    Scripted.track Scripted.found_once Scripted.no_key
      (PyCapture (Scripted.video 2 2)) 1 false init_state
    = (s1, Returned (Some traj)) ∧
    (Scripted.rect_floats Scripted.found_once Scripted.no_key
       (PyCapture (Scripted.video 2 2)) 0 1 "wave_measurements.npy"
       "position_graphs.png" false init_state).2
    = Returned (true_divide traj 0) ∧
    ∀ v v' : list float, length v = length v' →
      ∀ e, true_divide_vec traj v = Raised e →
           e = ValueError ∧ true_divide_vec traj v' = Raised ValueError.
Proof.
  eexists _, _. split; [vm_compute; reflexivity|].
  eapply (calibration_accepts_any_scale
           (Scripted.tracker_init Scripted.found_once) Scripted.tracker_update
           Scripted.selectROI Scripted.rectangle Scripted.no_key
           (PyCapture (Scripted.video 2 2)) 0 1 "wave_measurements.npy"
           "position_graphs.png" false init_state).
  vm_compute. reflexivity.
Defined.

(** * More of the script *)

Section MoreFacts.
Context {Frame Tracker Threshold : Type}.
Variable tracker_init : Frame → roi → Tracker.
Variable tracker_update : Tracker → Frame → Tracker * (bool * bbox).
Variable selectROI : nat → Frame → roi.
Variable rectangle : Frame → Z * Z → Z * Z → Frame.
Variable waitKey : nat → Z.
Variable VideoCapture : string → capture Frame.
Variable define_stakes : option Frame → nat → list (point * point).
Variable rectify_video_by_gradation :
  string → pyobj Frame → Threshold → bool → M unit.

Local Abbreviation track :=
  (track_objects_in_video tracker_init tracker_update selectROI rectangle waitKey).
Local Abbreviation rect_floats :=
  (rect_floats_video_to_waveform tracker_init tracker_update selectROI
     rectangle waitKey).
Local Abbreviation unrectified :=
  (unrectified_to_waveform tracker_init tracker_update selectROI rectangle
     waitKey VideoCapture define_stakes).
Local Abbreviation via_rectification :=
  (unrectified_to_rect_to_waveform tracker_init tracker_update selectROI
     rectangle waitKey rectify_video_by_gradation).

(** ** A path where a capture is expected *)

(** X1. Given the path of the rectified video, as its docstring asks,
    [rect_floats_video_to_waveform] raises [AttributeError] on the first
    [cap.read()], having printed, plotted and saved nothing. *)
Theorem rect_floats_on_a_path_raises (path : string) (ppm : float)
    (num_stakes : nat) (arr_out_path graph_out_path : string) (show : bool)
    (s : pstate) :
  rect_floats (PyStr path) ppm num_stakes arr_out_path graph_out_path show s
  = (s, Raised AttributeError).
Proof. done. Qed.

(** X2. [unrectified_to_rect_to_waveform] with a path for [rect_path] never
    returns a waveform: when the rectification raises, so does the
    function, and when the rectification returns, the function raises
    [AttributeError] from the state the rectification left. *)
Theorem unrectified_to_rect_to_waveform_never_returns (video_path path : string)
    (ppm : float) (num_stakes : nat) (arr_out_path graph_out_path : string)
    (threshold_condition : Threshold) (show : bool) (s : pstate) :
  via_rectification video_path ppm num_stakes (PyStr path) arr_out_path
    graph_out_path threshold_condition show s
  = match rectify_video_by_gradation video_path (PyStr path)
            threshold_condition show s with
    | (s1, Returned _) => (s1, Raised AttributeError)
    | (s1, Raised e) => (s1, Raised e)
    end.
Proof.
  unfold unrectified_to_rect_to_waveform, mbind, M_bind, bind.
  by destruct (rectify_video_by_gradation _ _ _ _ s) as [s1 [[]|e]].
Qed.

(** ** The keyboard *)



Lemma tracking_loop_stops_at_esc (j : nat) :
  ∀ (pending : list (option Frame)) (p shown : nat) (ts : list Tracker)
    (pos : ndarray) (s : pstate),
  Z.land (waitKey (shown + j)) 255 = 27 →
  tracking_loop tracker_update rectangle waitKey true pending p shown ts pos s
  = tracking_loop tracker_update rectangle waitKey true (take (S j) pending)
      p shown ts pos s.
Proof.
  induction j as [|j IH]; intros [|[f|] pending] p shown ts pos s Hesc; try done.
  - cbn [tracking_loop take]. unfold mbind, M_bind, bind.
    destruct (update_trackers _ _ _ _ _ _ _ s) as [s1 [[[ts1 f1] pos1]|e]]; [|done].
    rewrite Nat.add_0_r in Hesc. by rewrite Hesc.
  - cbn [tracking_loop take]. unfold mbind, M_bind, bind.
    destruct (update_trackers _ _ _ _ _ _ _ s) as [s1 [[[ts1 f1] pos1]|e]]; [|done].
    destruct (Z.land (waitKey shown) 255 =? 27); [done|].
    apply IH. by replace (S shown + j)%nat with (shown + S j)%nat by lia.
Qed.

(** X4. With [show=True], once ESC (a key code whose low byte is 27) is
    read while the [j]-th displayed frame is on screen, nothing after that
    frame is read: the run is the run on the video cut after its first
    [j + 2] reads (the initial frame and [j + 1] displayed ones). It
    returns what it has recorded so far. *)
Theorem esc_cuts_the_video_short (j : nat) (c : capture Frame) (num_stakes : nat)
    (s : pstate) :
  Z.land (waitKey j) 255 = 27 →
  track (PyCapture c) num_stakes true s
  = track (PyCapture (Capture (take (S (S j)) (reads c)) (pos_frames c)
                        (frame_count c))) num_stakes true s.
Proof.
  intros Hesc. unfold track_objects_in_video, cap_read.
  destruct c as [[|[f|] pending] p n]; simpl; try done.
  unfold mbind, M_bind, bind. simpl.
  destruct (np_zeros n num_stakes 2) as [pos|e]; [|done]. simpl.
  by rewrite (tracking_loop_stops_at_esc j pending).
Qed.

(** A run that returns an array, down to the loop and the state the loop
    starts from. *)
Lemma track_objects_in_video_loop_from (c : capture Frame) (num_stakes : nat)
    (show : bool) (s s' : pstate) (a : ndarray) :
  track (PyCapture c) num_stakes show s = (s', Returned (Some a)) →
  ∃ f c' pos,
    cap_read c = (Some f, c') ∧
    np_zeros (frame_count c') num_stakes 2 = Returned pos ∧
    tracking_loop tracker_update rectangle waitKey show (reads c') (pos_frames c') 0
      ((λ i, tracker_init f (selectROI i f)) <$> seq 0 num_stakes) pos
      (PState (stdout s ++ [pretty (frame_count c')]) (files s) (trace s))
    = (s', Returned a).
Proof.
  intros Hrun. unfold track_objects_in_video in Hrun.
  destruct (cap_read c) as [[f|] c'] eqn:Hread; [|done].
  apply bind_inv in Hrun as [(s1 & [] & [= <-] & Hrun)|(e & _ & [=])].
  apply lift_bind_inv in Hrun as [(pos & Hzeros & Hrun)|(e & _ & _ & [=])].
  apply bind_inv in Hrun as [(s2 & a' & Hloop & [= <- <-])|(e & _ & [=])].
  by exists f, c', pos.
Qed.

(** ** What the buffer holds after a run *)

(** A pass that returns: the cells of the markers it found hold their
    centres, and no other cell has changed. *)
Lemma update_trackers_cells (cf : Z) (Hcf : 0 ≤ cf) (ts : list Tracker) :
  ∀ (i : nat) (f f' : Frame) (pos pos' : ndarray) (ts' : list Tracker)
    (s s' : pstate),
  wf_ndarray pos →
  update_trackers tracker_update rectangle cf i ts f pos s
    = (s', Returned (ts', f', pos')) →
  ∃ evs, trace s' = trace s ++ evs ∧
    Forall (λ e, ev_frame e = cf ∧ (i ≤ ev_marker e)%nat) evs ∧
    Forall (λ e, ev_success e = true →
                 cell2 pos' (Z.to_nat cf) (ev_marker e)
                 = Some (centre_cell (ev_bbox e))) evs ∧
    ∀ k j, (∀ e, e ∈ evs → ev_success e = true →
                 ¬ (k = Z.to_nat cf ∧ j = ev_marker e)) →
           cell2 pos' k j = cell2 pos k j.
Proof.
  induction ts as [|t ts IH]; intros i f f' pos pos' ts' s s' Hwf Hrun.
  - injection Hrun as <- _ _ <-. exists []. rewrite app_nil_r. done.
  - apply update_trackers_cons_inv in Hrun
      as (s1 & pos1 & f1 & rest & -> & (_ & _ & Htrace1) & Hrec & Hhead).
    set (ok := (tracker_update t f).2.1) in *.
    set (b := (tracker_update t f).2.2) in *.
    assert (wf_ndarray pos1 ∧
            (ok = true → cell2 pos1 (Z.to_nat cf) i = Some (centre_cell b)) ∧
            (∀ k j, ¬ (ok = true ∧ k = Z.to_nat cf ∧ j = i) →
                    cell2 pos1 k j = cell2 pos k j)) as (Hwf1 & Hhere & Hother).
    { destruct ok.
      - destruct Hhead as [Hset _].
        pose proof (setitem2_lookup _ _ _ _ _ Hcf Hwf Hset) as Hlook.
        apply setitem2_inv in Hset as (_ & _ & Hwf1 & Hcells); [|done].
        split; [tauto|]. split; [done|]. intros k j Hkj. apply Hcells.
        destruct (decide (k = Z.to_nat cf)); [|by left].
        destruct (decide (j = i)); [|by right]. tauto.
      - destruct Hhead as [-> _]. done. }
    destruct (IH (S i) f1 f' pos1 pos' rest s1 s' Hwf1 Hrec)
      as (evs & Htrace & Hevs & Hfound & Hkeep).
    exists (Update cf i ok b :: evs). split.
    { rewrite Htrace, Htrace1, <- app_assoc. done. }
    split.
    { constructor; [simpl; lia|]. eapply Forall_impl; [exact Hevs|].
      intros e. simpl. lia. }
    split.
    + constructor.
      * simpl. intros Hok. rewrite Hkeep; [by apply Hhere|].
        intros e He _ [_ Hm]. rewrite Forall_forall in Hevs.
        destruct (Hevs e He) as [_ ?]. lia.
      * exact Hfound.
    + intros k j Hnone. rewrite Hkeep.
      * apply Hother. intros (Hok & -> & ->).
        apply (Hnone (Update cf i ok b)); [by left|done|done].
      * intros e He. apply Hnone. by right.
Qed.

Lemma tracking_loop_cells (show : bool) (pending : list (option Frame)) :
  ∀ (p shown : nat) (ts : list Tracker) (pos a : ndarray) (s s' : pstate),
  wf_ndarray pos →
  tracking_loop tracker_update rectangle waitKey show pending p shown ts pos s
    = (s', Returned a) →
  ∃ evs, trace s' = trace s ++ evs ∧
    Forall (λ e, Z.of_nat p ≤ ev_frame e) evs ∧
    Forall (λ e, ev_success e = true →
                 cell2 a (Z.to_nat (ev_frame e)) (ev_marker e)
                 = Some (centre_cell (ev_bbox e))) evs ∧
    ∀ k j, (∀ e, e ∈ evs → ev_success e = true →
                 ¬ (k = Z.to_nat (ev_frame e) ∧ j = ev_marker e)) →
           cell2 a k j = cell2 pos k j.
Proof.
  induction pending as [|[f|] pending IH]; intros p shown ts pos a s s' Hwf Hrun.
  - injection Hrun as <- <-. exists []. rewrite app_nil_r. done.
  - cbn [tracking_loop] in Hrun.
    replace (Z.of_nat (S p) - 1) with (Z.of_nat p) in Hrun by lia.
    apply bind_inv in Hrun as [(s1 & [[ts1 f1] pos1] & Hpass & Hrun)|(e & _ & [=])].
    assert (0 ≤ Z.of_nat p) as Hp by lia.
    pose proof (update_trackers_spec _ _ _ Hp _ _ _ _ _ _ _ Hpass)
      as (evs0 & _ & _ & _ & Hret).
    destruct (Hret ts1 pos1 eq_refl) as (_ & _ & Hwf1 & _).
    apply update_trackers_cells in Hpass
      as (evs1 & Htrace1 & Hevs1 & Hfound1 & Hkeep1); [|done|done].
    rewrite Nat2Z.id in Hfound1, Hkeep1.
    assert (∃ evs2, trace s' = trace s1 ++ evs2 ∧
              Forall (λ e, Z.of_nat (S p) ≤ ev_frame e) evs2 ∧
              Forall (λ e, ev_success e = true →
                           cell2 a (Z.to_nat (ev_frame e)) (ev_marker e)
                           = Some (centre_cell (ev_bbox e))) evs2 ∧
              ∀ k j, (∀ e, e ∈ evs2 → ev_success e = true →
                           ¬ (k = Z.to_nat (ev_frame e) ∧ j = ev_marker e)) →
                     cell2 a k j = cell2 pos1 k j)
      as (evs2 & Htrace2 & Hevs2 & Hfound2 & Hkeep2).
    { destruct show; [destruct (Z.land (waitKey shown) 255 =? 27)|].
      - injection Hrun as <- <-. exists []. rewrite app_nil_r. done.
      - eapply IH; [tauto|exact Hrun].
      - eapply IH; [tauto|exact Hrun]. }
    exists (evs1 ++ evs2). split.
    { rewrite Htrace2, Htrace1, <- app_assoc. done. }
    rewrite Forall_forall in Hevs1, Hevs2.
    split; [|split].
    + apply Forall_app. split; apply Forall_forall; intros e He.
      * destruct (Hevs1 e He). lia.
      * specialize (Hevs2 e He). simpl in Hevs2. lia.
    + apply Forall_app. split; [|exact Hfound2].
      apply Forall_forall. intros e He Hok.
      destruct (Hevs1 e He) as [Hf _]. rewrite Hf, Nat2Z.id. rewrite Hkeep2.
      * rewrite Forall_forall in Hfound1. by apply Hfound1.
      * intros e2 He2 _ [Hk _]. specialize (Hevs2 e2 He2). simpl in Hevs2. lia.
    + intros k j Hnone. rewrite Hkeep2.
      * apply Hkeep1. intros e He Hok [-> ->].
        apply (Hnone e); [apply elem_of_app; by left|done|].
        destruct (Hevs1 e He) as [-> _]. by rewrite Nat2Z.id.
      * intros e He. apply Hnone. apply elem_of_app. by right.
  - injection Hrun as <- <-. exists []. rewrite app_nil_r. done.
Qed.

(** X5. In every run of [track_objects_in_video] that returns an array,
    each tracker update that succeeded, for marker [i] on frame [k] with
    box (x, y, w, h), has left (x + w/2, y + h/2) in cell [(k, i)]. *)
Theorem found_marker_cell_holds_the_box_centre (cap : pyobj Frame)
    (num_stakes : nat) (show : bool) (s' : pstate) (a : ndarray) (n : nat)
    (e : event) :
  track cap num_stakes show init_state = (s', Returned (Some a)) →
  trace s' !! n = Some e → ev_success e = true →
  cell2 a (Z.to_nat (ev_frame e)) (ev_marker e) = Some (centre_cell (ev_bbox e)).
Proof.
  intros Hrun He Hok. destruct cap as [path|c]; [done|].
  apply track_objects_in_video_loop_from in Hrun
    as (f & c' & pos & Hread & Hzeros & Hloop).
  apply np_zeros_inv in Hzeros as (_ & _ & Hwf & _).
  apply tracking_loop_cells in Hloop as (evs & Htrace & _ & Hfound & _); [|done].
  simpl in Htrace. rewrite Htrace in He.
  apply list_elem_of_lookup_2 in He. rewrite Forall_forall in Hfound.
  by apply Hfound.
Qed.

(** X6. In every run that returns an array, a cell for which the run
    records no successful update still holds what [np.zeros] put there:
    the rows of skipped frames, of frames after the last one read (a
    count that over-shoots, an ESC), and the cells of lost markers. *)
Theorem cell_without_successful_update_is_zero (cap : pyobj Frame)
    (num_stakes : nat) (show : bool) (s' : pstate) (a : ndarray) (k i : nat) :
  track cap num_stakes show init_state = (s', Returned (Some a)) →
  (∀ e, e ∈ trace s' → ev_success e = true →
        ¬ (k = Z.to_nat (ev_frame e) ∧ i = ev_marker e)) →
  cell2 a k i = unset_cell (dim0 a) num_stakes k i.
Proof.
  intros Hrun Hnone. destruct cap as [path|c]; [done|].
  apply track_objects_in_video_loop_from in Hrun
    as (f & c' & pos & Hread & Hzeros & Hloop).
  apply np_zeros_inv in Hzeros as (_ & Hshape & Hwf & Hcells).
  pose proof (tracking_loop_spec _ _ _ _ _ _ _ _ _ _ _ _ Hloop)
    as (evs0 & _ & _ & _ & Hret).
  destruct (Hret a eq_refl) as (Hsh & _).
  apply tracking_loop_cells in Hloop as (evs & Htrace & _ & _ & Hkeep); [|done].
  simpl in Htrace. rewrite Htrace in Hnone.
  rewrite Hkeep by done. unfold dim0. rewrite Hsh, Hshape. simpl. apply Hcells.
Qed.

(** ** Which updates a run makes *)

Lemma update_trackers_events (cf : Z) (ts : list Tracker) :
  ∀ (i : nat) (f f' : Frame) (pos pos' : ndarray) (ts' : list Tracker)
    (s s' : pstate),
  update_trackers tracker_update rectangle cf i ts f pos s
    = (s', Returned (ts', f', pos')) →
  ∃ evs, trace s' = trace s ++ evs ∧
    (λ e, (ev_frame e, ev_marker e)) <$> evs = (λ j, (cf, j)) <$> seq i (length ts).
Proof.
  induction ts as [|t ts IH]; intros i f f' pos pos' ts' s s' Hrun.
  - injection Hrun as <- _ _ _. exists []. by rewrite app_nil_r.
  - apply update_trackers_cons_inv in Hrun
      as (s1 & pos1 & f1 & rest & -> & (_ & _ & Htrace1) & Hrec & _).
    apply IH in Hrec as (evs & Htrace & Hevs).
    eexists (_ :: evs). split.
    + rewrite Htrace, Htrace1, <- app_assoc. done.
    + rewrite fmap_cons, Hevs. done.
Qed.

Lemma passes_S (p m n : nat) :
  passes p (S m) n = ((λ i, (Z.of_nat p, i)) <$> seq 0 n) ++ passes (S p) m n.
Proof. done. Qed.

Lemma tracking_loop_events (show : bool) (pending : list (option Frame)) :
  ∀ (p shown : nat) (ts : list Tracker) (pos a : ndarray) (s s' : pstate),
  tracking_loop tracker_update rectangle waitKey show pending p shown ts pos s
    = (s', Returned a) →
  ∃ m evs, trace s' = trace s ++ evs ∧
    (m ≤ readable pending)%nat ∧
    (show = false → m = readable pending) ∧
    (λ e, (ev_frame e, ev_marker e)) <$> evs = passes p m (length ts).
Proof.
  induction pending as [|[f|] pending IH]; intros p shown ts pos a s s' Hrun.
  - injection Hrun as <- _. exists 0%nat, []. by rewrite app_nil_r.
  - cbn [tracking_loop] in Hrun.
    replace (Z.of_nat (S p) - 1) with (Z.of_nat p) in Hrun by lia.
    apply bind_inv in Hrun as [(s1 & [[ts1 f1] pos1] & Hpass & Hrun)|(e & _ & [=])].
    assert (0 ≤ Z.of_nat p) as Hp by lia.
    pose proof (update_trackers_spec _ _ _ Hp _ _ _ _ _ _ _ Hpass)
      as (evs0 & _ & _ & _ & Hret).
    destruct (Hret ts1 pos1 eq_refl) as (Hlen & _).
    apply update_trackers_events in Hpass as (evs1 & Htrace1 & Hevs1).
    assert (∃ m evs2, trace s' = trace s1 ++ evs2 ∧
              (m ≤ readable pending)%nat ∧
              (show = false → m = readable pending) ∧
              (λ e, (ev_frame e, ev_marker e)) <$> evs2
              = passes (S p) m (length ts)) as (m & evs2 & Htrace2 & Hm & Hall & Hevs2).
    { destruct show; [destruct (Z.land (waitKey shown) 255 =? 27)|].
      - injection Hrun as <- _. exists 0%nat, []. rewrite app_nil_r.
        split; [done|]. split; [lia|]. done.
      - apply IH in Hrun. by rewrite Hlen in Hrun.
      - apply IH in Hrun. by rewrite Hlen in Hrun. }
    exists (S m), (evs1 ++ evs2). split.
    { rewrite Htrace2, Htrace1, <- app_assoc. done. }
    split; [simpl; lia|]. split; [intros Hshow; simpl; by rewrite Hall|].
    by rewrite fmap_app, Hevs1, Hevs2, passes_S.
  - injection Hrun as <- _. exists 0%nat, []. by rewrite app_nil_r.
Qed.

(** X7. A run that returns an array has updated every tracker exactly
    once on each frame it processed, marker after marker, lost before or
    not, starting at the index after the initial frame; with [show=False]
    it has processed every frame up to the first read that fails. *)
Theorem every_tracker_updated_on_every_frame (c : capture Frame)
    (num_stakes : nat) (show : bool) (s' : pstate) (a : ndarray) :
  track (PyCapture c) num_stakes show init_state = (s', Returned (Some a)) →
  ∃ m, (m ≤ readable (drop 1 (reads c)))%nat ∧
    (show = false → m = readable (drop 1 (reads c))) ∧
    (λ e, (ev_frame e, ev_marker e)) <$> trace s'
    = passes (S (pos_frames c)) m num_stakes.
Proof.
  intros Hrun.
  apply track_objects_in_video_loop_from in Hrun
    as (f & c' & pos & Hread & Hzeros & Hloop).
  apply cap_read_Some in Hread as (_ & Hpos & Hreads).
  apply tracking_loop_events in Hloop as (m & evs & Htrace & Hm & Hall & Hevs).
  rewrite length_fmap, length_seq in Hevs. simpl in Htrace.
  rewrite Hreads. simpl. rewrite drop_0. exists m. rewrite <- Hpos, Htrace. done.
Qed.

(** ** What a run saves *)

Lemma track_objects_in_video_keeps_files (cap : pyobj Frame) (num_stakes : nat)
    (show : bool) (s s' : pstate) (r : py (option ndarray)) :
  track cap num_stakes show s = (s', r) → files s' = files s.
Proof.
  intros Hrun. destruct cap as [path|c]; [by injection Hrun as <- _|].
  destruct (cap_read c) as [[f|] c'] eqn:Hread.
  - by destruct (track_objects_in_video_spec _ _ _ _ _ _ _ _ _ _ _ _ _ Hread Hrun)
      as (_ & ? & _).
  - rewrite (track_objects_in_video_first_read_fails _ _ _ _ _ _ _ _ _ _ Hread) in Hrun.
    by injection Hrun as <- _.
Qed.

Lemma omap_all_defined {A B : Type} (g : A → option B) (l : list A) :
  Forall (λ x, is_Some (g x)) l →
  length (omap g l) = length l ∧ ∀ k, omap g l !! k = l !! k ≫= g.
Proof.
  induction 1 as [|x l [y Hy] _ [IHlen IHlook]]; [done|].
  cbn [omap list_omap]. rewrite Hy. split; [simpl; lia|].
  intros [|k]; simpl; [done|apply IHlook].
Qed.

Lemma column_of_wf (a : ndarray) (i c : nat) :
  wf_ndarray a → (i < dim1 a)%nat → (c < dim2 a)%nat →
  ∃ ys, column a i c = Returned ys ∧ length ys = dim0 a ∧
        ∀ k, ys !! k = cell a k i c.
Proof.
  intros [Hlen Hrows] Hi Hc. unfold column. rewrite !decide_True by done.
  eexists. split; [done|].
  destruct (omap_all_defined (λ row : list (list float), row !! i ≫= (.!! c))
              (cells a)) as [Hl Hk].
  - eapply Forall_impl; [exact Hrows|]. intros row [Hrow Hcells].
    destruct (lookup_lt_is_Some_2 row i) as [xy Hxy]; [lia|].
    rewrite Hxy. simpl. apply lookup_lt_is_Some_2.
    by rewrite (Forall_lookup_1 _ _ _ _ Hcells Hxy).
  - split; [congruence|]. intros k. rewrite Hk. unfold cell, cell2.
    by destruct (cells a !! k).
Qed.

Lemma plot_lines_labels (a : ndarray) (stakes : list nat) :
  ∀ lines, plot_lines a stakes = Returned lines →
  length lines = length stakes ∧
  ∀ n i, stakes !! n = Some i →
    ∃ ys, lines !! n = Some ("stake" +:+ pretty i, ys) ∧ column a i 1 = Returned ys.
Proof.
  induction stakes as [|i0 stakes IH]; intros lines Hlines.
  - injection Hlines as <-. done.
  - cbn [plot_lines] in Hlines.
    destruct (column a i0 1) as [ys0|] eqn:Hcol; [|done]. simpl in Hlines.
    destruct (plot_lines a stakes) as [rest|]; [|done]. simpl in Hlines.
    injection Hlines as <-. destruct (IH rest eq_refl) as [Hlen Hnth].
    split; [simpl; lia|]. intros [|n] i Hi; simpl in Hi.
    + injection Hi as <-. by exists ys0.
    + by apply Hnth.
Qed.


(** ** The unrectified path *)

Lemma stake_scales_Returned (all_points : list (point * point)) (v : list float) :
  stake_scales all_points = Returned v →
  v = derive_scale all_points ∧ all_points ≠ [].
Proof. destruct all_points; [done|]. by intros [= <-]. Qed.

(** [unrectified_to_waveform] is the scales of the stakes, then tracking
    on the source after one read, then the division. *)
Lemma unrectified_to_waveform_unfold (video_path : string) (num_stakes : nat)
    (show : bool) (s : pstate) :
  unrectified video_path num_stakes show s
  = let '(f, c1) := cap_read (VideoCapture video_path) in
    match stake_scales (define_stakes f num_stakes) with
    | Raised e => (s, Raised e)
    | Returned ppm =>
        match track (PyCapture c1) num_stakes show s with
        | (s1, Returned positions) => (s1, calibrate_vec positions ppm)
        | (s1, Raised e) => (s1, Raised e)
        end
    end.
Proof.
  unfold unrectified_to_waveform.
  destruct (cap_read (VideoCapture video_path)) as [f c1].
  unfold mbind, M_bind, bind, lift.
  destruct (stake_scales (define_stakes f num_stakes)) as [ppm|e]; [|done].
  destruct (track_objects_in_video _ _ _ _ _ _ _ _ s) as [s1 [oa|e]]; [|done].
  by destruct (calibrate_vec _ _).
Qed.

(** X9. In [unrectified_to_waveform] two frames are read before the loop,
    one by the function and one by the tracking it calls: when the first
    read succeeds, every tracker update is at a frame index of at least 2
    past the source's starting position, and the array that is divided by
    the scales still has its zeros in all earlier rows. *)
Theorem unrectified_never_reaches_the_first_two_rows (video_path : string)
    (num_stakes : nat) (show : bool) (s' : pstate) (r : py ndarray) :
  (cap_read (VideoCapture video_path)).1 ≠ None →
  unrectified video_path num_stakes show init_state = (s', r) →
  let start := pos_frames (VideoCapture video_path) in
  Forall (λ e, Z.of_nat start + 2 ≤ ev_frame e) (trace s') ∧
  ∀ w, r = Returned w →
    ∃ traj, true_divide_vec traj
              (derive_scale (define_stakes (cap_read (VideoCapture video_path)).1
                               num_stakes)) = Returned w ∧
      ∀ k i, (k < start + 2)%nat →
             cell2 traj k i = unset_cell (dim0 traj) num_stakes k i.
Proof.
  intros Hfirst Hrun start. rewrite unrectified_to_waveform_unfold in Hrun.
  destruct (cap_read (VideoCapture video_path)) as [[f0|] c1] eqn:Hread1; [|done].
  apply cap_read_Some in Hread1 as (_ & Hpos1 & _). cbn [fst].
  destruct (stake_scales (define_stakes (Some f0) num_stakes)) as [ppm|e0] eqn:Hscales.
  2:{ injection Hrun as <- <-. split; [done|]. by intros w. }
  apply stake_scales_Returned in Hscales as [-> _].
  destruct (track (PyCapture c1) num_stakes show init_state) as [s1 res] eqn:Htrack.
  assert (s' = s1) as -> by (by destruct res; injection Hrun as -> _).
  destruct (cap_read c1) as [[f1|] c2] eqn:Hread2.
  - pose proof (track_objects_in_video_spec _ _ _ _ _ _ _ _ _ _ _ _ _ Hread2 Htrack)
      as (_ & _ & evs & Htrace & Hevs & _ & Hret).
    apply cap_read_Some in Hread2 as (_ & Hpos2 & _).
    simpl in Htrace. rewrite Htrace. split.
    + eapply Forall_impl; [exact Hevs|]. intros e. simpl.
      unfold start. lia.
    + intros w ->. destruct res as [oa|e]; [|done].
      destruct (Hret oa eq_refl) as (traj & -> & _ & Hshape & _ & Hkeep & _).
      injection Hrun as Hdiv. exists traj. split; [done|].
      intros k i Hk. unfold dim0. rewrite Hshape. simpl. apply Hkeep.
      unfold start in Hk. lia.
  - rewrite (track_objects_in_video_first_read_fails _ _ _ _ _ _ _ _ _ _ Hread2)
      in Htrack.
    injection Htrack as <- <-. split; [done|]. intros w ->. done.
Qed.

(** X10. [unrectified_to_waveform] can only return with one or two
    stakes. When [define_stakes] yields no point pair it raises
    [IndexError] at once, before any tracking and with nothing printed;
    when it yields three pairs or more, the run ends in an exception, a
    [ValueError] from the division whenever tracking itself returned an
    array. *)
Theorem unrectified_returns_only_for_one_or_two_stakes (video_path : string)
    (num_stakes : nat) (show : bool) (s : pstate) :
  let all_points := define_stakes (cap_read (VideoCapture video_path)).1 num_stakes in
  length all_points ≠ 1%nat → length all_points ≠ 2%nat →
  (∃ e, (unrectified video_path num_stakes show s).2 = Raised e) ∧
  (all_points = [] →
   unrectified video_path num_stakes show s = (s, Raised IndexError)) ∧
  (all_points ≠ [] →
   ∀ s1 traj,
     track (PyCapture (cap_read (VideoCapture video_path)).2) num_stakes show s
       = (s1, Returned (Some traj)) →
     unrectified video_path num_stakes show s = (s1, Raised ValueError)).
Proof.
  intros all_points H1 H2. rewrite unrectified_to_waveform_unfold.
  unfold all_points in *. clear all_points.
  destruct (cap_read (VideoCapture video_path)) as [f c1]. cbn [fst snd] in *.
  destruct (define_stakes f num_stakes) as [|pq all_points] eqn:Hpoints.
  { split; [by exists IndexError|]. split; [done|]. done. }
  cbn [stake_scales].
  assert (∀ s1 traj,
            track (PyCapture c1) num_stakes show s = (s1, Returned (Some traj)) →
            true_divide_vec traj (derive_scale (pq :: all_points))
            = Raised ValueError) as Hdiv.
  { intros s1 traj Htrack. apply true_divide_vec_Raised.
    destruct (track_objects_in_video_array_inv _ _ _ _ _ _ _ _ _ _ _ Htrack)
      as (c & f1 & c' & _ & _ & (_ & _ & evs & _ & _ & _ & Hret)).
    destruct (Hret _ eq_refl) as (a0 & [= <-] & _ & Hshape & _).
    unfold derive_scale, dim2. rewrite length_fmap, Hshape. simpl.
    split; [done|]. split; [done|]. split; [done|]. lia. }
  split; [|split; [done|]].
  - destruct (track (PyCapture c1) num_stakes show s) as [s1 [[traj|]|e]] eqn:Htrack.
    + exists ValueError. cbn [snd calibrate_vec]. by apply (Hdiv s1).
    + by exists TypeError.
    + by exists e.
  - intros _ s1 traj Htrack. rewrite Htrack. cbn [calibrate_vec].
    by rewrite (Hdiv s1 traj Htrack).
Qed.

(** X11. What [unrectified_to_waveform] returns, cell by cell, when the
    tracking it calls returned [traj]. With one stake every coordinate is
    divided by that stake's scale. With two stakes the x coordinate of
    every marker is divided by the scale of stake 0 and the y coordinate
    of every marker by the scale of stake 1. *)
Theorem unrectified_divides_by_coordinate (video_path : string)
    (num_stakes : nat) (show : bool) (s s1 : pstate) (traj : ndarray) :
  let all_points := define_stakes (cap_read (VideoCapture video_path)).1 num_stakes in
  track (PyCapture (cap_read (VideoCapture video_path)).2) num_stakes show s
    = (s1, Returned (Some traj)) →
  (∀ pq, all_points = [pq] →
     ∃ w, unrectified video_path num_stakes show s = (s1, Returned w) ∧
       shape w = shape traj ∧
       ∀ k i c, cell w k i c
                = (λ x, (x / linalg_norm ((pq.1.1 - pq.2.1)%float,
                                          (pq.1.2 - pq.2.2)%float))%float)
                  <$> cell traj k i c) ∧
  (∀ pq0 pq1, all_points = [pq0; pq1] →
     ∃ w, unrectified video_path num_stakes show s = (s1, Returned w) ∧
       shape w = shape traj ∧
       ∀ k i,
         cell w k i 0
         = (λ x, (x / linalg_norm ((pq0.1.1 - pq0.2.1)%float,
                                   (pq0.1.2 - pq0.2.2)%float))%float)
           <$> cell traj k i 0 ∧
         cell w k i 1
         = (λ y, (y / linalg_norm ((pq1.1.1 - pq1.2.1)%float,
                                   (pq1.1.2 - pq1.2.2)%float))%float)
           <$> cell traj k i 1).
Proof.
  intros all_points Htrack. unfold all_points. clear all_points.
  destruct (track_objects_in_video_array_inv _ _ _ _ _ _ _ _ _ _ _ Htrack)
    as (c & f1 & c' & _ & _ & (_ & _ & evs & _ & _ & _ & Hret)).
  destruct (Hret _ eq_refl) as (a0 & [= <-] & _ & Hshape & Hwf & _).
  split.
  - intros pq Hpoints. rewrite unrectified_to_waveform_unfold.
    destruct (cap_read (VideoCapture video_path)) as [f c1]. simpl in *.
    rewrite Hpoints, Htrack. simpl. eexists. split; [done|]. split; [done|].
    intros k i j. apply cell_true_divide.
  - intros pq0 pq1 Hpoints. rewrite unrectified_to_waveform_unfold.
    destruct (cap_read (VideoCapture video_path)) as [f c1]. simpl in *.
    rewrite Hpoints, Htrack. simpl. unfold dim2. rewrite Hshape. simpl.
    eexists. split; [done|]. split; [done|].
    intros k i. unfold cell, cell2. simpl. rewrite list_lookup_fmap.
    destruct Hwf as [_ Hrows].
    destruct (cells traj !! k) as [row|] eqn:Hrow; simpl; [|done].
    rewrite list_lookup_fmap.
    destruct (row !! i) as [xy|] eqn:Hxy; simpl; [|done].
    destruct (Forall_lookup_1 _ _ _ _ Hrows Hrow) as [_ Hcells].
    pose proof (Forall_lookup_1 _ _ _ _ Hcells Hxy) as Hlen.
    unfold dim2 in Hlen. rewrite Hshape in Hlen. simpl in Hlen.
    destruct xy as [|x [|y [|z xy]]]; try done.
Qed.

(** X12. When [define_stakes] yields at least one point pair and the read
    made by the tracking fails (the source holds fewer than two readable
    frames in a row), [unrectified_to_waveform] prints the diagnostic and
    ends in a [TypeError], the division being applied to [None]; the
    outcome of its own first read is not looked at. *)
Theorem unrectified_without_a_second_frame_raises (video_path : string)
    (num_stakes : nat) (show : bool) (s : pstate) :
  define_stakes (cap_read (VideoCapture video_path)).1 num_stakes ≠ [] →
  (cap_read (cap_read (VideoCapture video_path)).2).1 = None →
  unrectified video_path num_stakes show s
  = (PState (stdout s ++ ["Error: Could not read video frame."]) (files s) (trace s),
     Raised TypeError).
Proof.
  intros Hpoints Hread. rewrite unrectified_to_waveform_unfold.
  destruct (cap_read (VideoCapture video_path)) as [f c1]. cbn [fst snd] in *.
  destruct (define_stakes f num_stakes) as [|pq all_points]; [done|].
  cbn [stake_scales].
  destruct (cap_read c1) as [[f1|] c2] eqn:Hread2; [done|].
  by rewrite (track_objects_in_video_first_read_fails _ _ _ _ _ _ _ _ _ _ Hread2).
Qed.

(** ** When the loop returns *)

Lemma setitem2_returns (a : ndarray) (k : Z) (i : nat) (v : float * float) :
  0 ≤ k < Z.of_nat (dim0 a) → (i < dim1 a)%nat → dim2 a = 2%nat →
  ∃ a', setitem2 a k i v = Returned a'.
Proof.
  intros Hk Hi Hd. unfold setitem2, norm_index.
  destruct (Z.leb_spec 0 k); [|lia].
  destruct (Z.ltb_spec k (Z.of_nat (dim0 a))); [|lia]. simpl.
  rewrite !decide_True by done. by eexists.
Qed.

Lemma update_trackers_returns (cf : Z) (ts : list Tracker) :
  (∀ t f, box_drawable (tracker_update t f).2.2) →
  ∀ (i : nat) (f : Frame) (pos : ndarray) (s : pstate),
  0 ≤ cf < Z.of_nat (dim0 pos) → (i + length ts ≤ dim1 pos)%nat →
  dim2 pos = 2%nat →
  ∃ s' ts' f' pos',
    update_trackers tracker_update rectangle cf i ts f pos s
    = (s', Returned (ts', f', pos')).
Proof.
  intros Hboxes. induction ts as [|t ts IH]; intros i f pos s Hcf Hi Hd.
  - by eexists _, _, _, _.
  - cbn [update_trackers]. pose proof (Hboxes t f) as Hbox.
    destruct (tracker_update t f) as [t' [success b]]. simpl in Hbox, Hi.
    unfold mbind, M_bind, bind, observe, lift, mret, M_ret, ret.
    destruct success.
    + destruct b as [[[x y] w] h].
      destruct Hbox as (x0 & y0 & x1 & y1 & -> & -> & -> & -> & -> & ->).
      destruct (setitem2_returns pos cf i ((x + w / 2)%float, (y + h / 2)%float))
        as [pos1 Hset]; [done|lia|done|].
      rewrite Hset.
      apply setitem2_inv in Hset as (_ & Hshape & _); [|lia].
      destruct (IH (S i) (rectangle f (x0, y0) (x1, y1)) pos1
                  (PState (stdout s) (files s)
                     (trace s ++ [Update cf i true (x, y, w, h)])))
        as (s' & ts' & f' & pos' & ->).
      * unfold dim0. rewrite Hshape. done.
      * unfold dim1. rewrite Hshape. fold (dim1 pos). lia.
      * unfold dim2. by rewrite Hshape.
      * by eexists _, _, _, _.
    + destruct (IH (S i) f pos
                  (PState (stdout s) (files s) (trace s ++ [Update cf i false b])))
        as (s' & ts' & f' & pos' & ->); [done|lia|done|].
      by eexists _, _, _, _.
Qed.

(** X13. Once the buffer exists, the tracking loop returns it, whatever is
    lost, whenever the frame index cannot pass the buffer's rows (the
    source's position plus the reads it holds is at most the number of
    rows), the buffer has a column for every tracker, and the tracker only
    ever reports boxes that can be drawn: no NaN, no infinity, corners
    that fit a C [int]. An early ESC and rows in excess do not prevent
    it. *)
Theorem loop_returns_when_the_buffer_has_room (show : bool)
    (pending : list (option Frame)) :
  (∀ t f, box_drawable (tracker_update t f).2.2) →
  ∀ (p shown : nat) (ts : list Tracker) (pos : ndarray) (s : pstate),
  (p + length pending ≤ dim0 pos)%nat → (length ts ≤ dim1 pos)%nat →
  dim2 pos = 2%nat →
  ∃ s' a,
    tracking_loop tracker_update rectangle waitKey show pending p shown ts pos s
    = (s', Returned a) ∧
    shape a = shape pos.
Proof.
  intros Hboxes.
  induction pending as [|[f|] pending IH]; intros p shown ts pos s Hp Hts Hd;
    [by eexists _, _| |by eexists _, _].
  cbn [tracking_loop]. simpl in Hp.
  replace (Z.of_nat (S p) - 1) with (Z.of_nat p) by lia.
  destruct (update_trackers_returns (Z.of_nat p) ts Hboxes 0%nat f pos s)
    as (s1 & ts1 & f1 & pos1 & Hpass); [lia|done|done|].
  unfold mbind, M_bind, bind. rewrite Hpass.
  apply update_trackers_spec in Hpass as (evs & _ & _ & _ & Hret); [|lia].
  destruct (Hret ts1 pos1 eq_refl) as (Hlen & Hshape & _).
  assert (dim0 pos1 = dim0 pos ∧ dim1 pos1 = dim1 pos ∧ dim2 pos1 = dim2 pos)
    as (Hd0 & Hd1 & Hd2) by (unfold dim0, dim1, dim2; by rewrite Hshape).
  destruct show; [destruct (Z.land (waitKey shown) 255 =? 27)|].
  - by eexists _, _.
  - destruct (IH (S p) (S shown) ts1 pos1 s1) as (s' & a & -> & Hsh); [lia..|].
    eexists _, _. split; [done|]. congruence.
  - destruct (IH (S p) shown ts1 pos1 s1) as (s' & a & -> & Hsh); [lia..|].
    eexists _, _. split; [done|]. congruence.
Qed.

(** X14. [track_objects_in_video] returns [None] exactly when the first
    read of the capture fails; in every other case it returns an array or
    raises. *)
Theorem none_exactly_when_first_read_fails (c : capture Frame) (num_stakes : nat)
    (show : bool) (s : pstate) :
  (track (PyCapture c) num_stakes show s).2 = Returned None ↔
  (cap_read c).1 = None.
Proof.
  destruct (cap_read c) as [[f|] c'] eqn:Hread; cbn [fst].
  - split; [|done]. intros Hnone.
    destruct (track (PyCapture c) num_stakes show s) as [s' r] eqn:Hrun.
    cbn [snd] in Hnone. subst r.
    destruct (track_objects_in_video_spec _ _ _ _ _ _ _ _ _ _ _ _ _ Hread Hrun)
      as (_ & _ & evs & _ & _ & _ & Hret).
    by destruct (Hret None eq_refl) as (a & ? & _).
  - by rewrite (track_objects_in_video_first_read_fails _ _ _ _ _ _ _ _ _ _ Hread).
Qed.

(** ** The script as a program *)

Local Abbreviation program :=
  (main tracker_init tracker_update selectROI rectangle waitKey VideoCapture
     define_stakes).

Lemma true_divide_vec_of_pairs (a w : ndarray) (v : list float) :
  wf_ndarray a → dim2 a = 2%nat → true_divide_vec a v = Returned w →
  shape w = shape a ∧ wf_ndarray w.
Proof.
  intros Hwf Hd. unfold true_divide_vec.
  destruct v as [|x [|y v]].
  - case_decide as Hl; [simpl in Hl; congruence|]. case_decide; [congruence|done].
  - intros [= <-]. split; [done|]. by apply wf_true_divide.
  - case_decide as Hl.
    + intros [= <-]. split; [done|]. destruct Hwf as [Hlen Hrows]. split; simpl.
      * by rewrite length_fmap.
      * apply Forall_fmap. eapply Forall_impl; [exact Hrows|].
        intros row [Hrow Hcells]. simpl. split; [by rewrite length_fmap|].
        apply Forall_fmap. eapply Forall_impl; [exact Hcells|].
        intros c Hc. simpl. rewrite length_zip_with. unfold dim2 in *. simpl in *.
        lia.
    + case_decide; [congruence|done].
Qed.

Lemma wf_rows_from (n : nat) (a : ndarray) :
  wf_ndarray a → wf_ndarray (rows_from n a).
Proof.
  intros [Hlen Hrows]. split; simpl.
  - unfold dim0. simpl. by rewrite length_drop, Hlen.
  - by apply Forall_drop.
Qed.

Lemma cell_rows_from (n : nat) (a : ndarray) (k i c : nat) :
  cell (rows_from n a) k i c = cell a (n + k) i c.
Proof. unfold cell, cell2. simpl. by rewrite lookup_drop. Qed.

Lemma unrectified_keeps_files (video_path : string) (num_stakes : nat)
    (show : bool) (s s' : pstate) (r : py ndarray) :
  unrectified video_path num_stakes show s = (s', r) → files s' = files s.
Proof.
  rewrite unrectified_to_waveform_unfold.
  destruct (cap_read (VideoCapture video_path)) as [f c1].
  destruct (stake_scales (define_stakes f num_stakes)) as [ppm|e];
    [|by intros [= <- _]].
  destruct (track (PyCapture c1) num_stakes show s) as [s1 res] eqn:Htrack.
  apply track_objects_in_video_keeps_files in Htrack.
  by destruct res; intros [= <- _].
Qed.

(** X15. When the script, run as a program, completes, it has saved
    exactly two files: the figure "graph.png" with the lines stake0 and
    stake1, and "array.npy" holding the result of
    [unrectified_to_waveform] without its rows 0 and 1; line [i] of the
    figure is the second coordinate of marker [i] from row 2 on. When the
    program ends in an exception it has saved nothing. *)
Theorem program_saves_the_rows_from_index_two (s s' : pstate) (r : py unit) :
  program s = (s', r) →
  match r with
  | Returned _ =>
      ∃ s1 w lines,
        unrectified "videos/test_vid1.mp4" 2 true s = (s1, Returned w) ∧
        files s' = files s ++ [("graph.png", Figure "Time" "Position (m)" lines);
                               ("array.npy", Npy (rows_from 2 w))] ∧
        shape (rows_from 2 w) = ((dim0 w - 2)%nat, 2%nat, 2%nat) ∧
        (∀ k i c, cell (rows_from 2 w) k i c = cell w (2 + k) i c) ∧
        length lines = 2%nat ∧
        ∀ i, (i < 2)%nat →
          ∃ ys, lines !! i = Some ("stake" +:+ pretty i, ys) ∧
                length ys = (dim0 w - 2)%nat ∧
                ∀ k, ys !! k = cell w (2 + k) i 1
  | Raised _ => files s' = files s
  end.
Proof.
  unfold main. intros Hrun.
  apply bind_inv in Hrun as [(s1 & w & Hun & Hrun)|(e & Hun & ->)].
  2:{ by eapply unrectified_keeps_files. }
  pose proof (unrectified_keeps_files _ _ _ _ _ _ Hun) as Hfiles.
  apply lift_bind_inv in Hrun as [(lines & Hlines & Hrun)|(e & _ & -> & ->)]; [|done].
  injection Hrun as <- <-. simpl.
  assert (shape w = (dim0 w, 2%nat, 2%nat) ∧ wf_ndarray w) as [Hshape Hwf].
  { pose proof Hun as Hun'. rewrite unrectified_to_waveform_unfold in Hun'.
    destruct (cap_read (VideoCapture "videos/test_vid1.mp4")) as [f c1].
    destruct (stake_scales (define_stakes f 2)) as [ppm|e]; [|done].
    destruct (track (PyCapture c1) 2 true s) as [s2 [[traj|]|e]] eqn:Htrack; [|done..].
    injection Hun' as _ Hdiv. cbn [calibrate_vec] in Hdiv.
    destruct (track_objects_in_video_array_inv _ _ _ _ _ _ _ _ _ _ _ Htrack)
      as (c & f1 & c' & _ & _ & (_ & _ & evs & _ & _ & _ & Hret)).
    destruct (Hret _ eq_refl) as (a0 & [= <-] & _ & Hsh & Hwf0 & _).
    apply true_divide_vec_of_pairs in Hdiv as [Hsw Hwfw]; [|done|].
    - split; [|done]. unfold dim0. rewrite Hsw, Hsh. done.
    - unfold dim2. by rewrite Hsh. }
  exists s1, w, lines. split; [done|].
  split; [by rewrite Hfiles, <- app_assoc|].
  split; [unfold rows_from, dim1, dim2; simpl; by rewrite Hshape|].
  split; [intros k i c; apply cell_rows_from|].
  destruct (plot_lines_labels _ _ _ Hlines) as [Hlen Hnth].
  split; [done|]. intros i Hi.
  destruct (Hnth i i) as (ys & Hline & Hcol).
  { apply lookup_seq. done. }
  destruct (column_of_wf (rows_from 2 w) i 1 (wf_rows_from 2 w Hwf))
    as (ys' & Hcol' & Hl & Hk).
  { unfold dim1. simpl. unfold dim1. rewrite Hshape. done. }
  { unfold dim2. simpl. unfold dim2. rewrite Hshape. simpl. lia. }
  rewrite Hcol in Hcol'. injection Hcol' as <-. exists ys.
  split; [done|]. split; [done|]. intros k. rewrite Hk. apply cell_rows_from.
Qed.

(** ** The first marker *)

Lemma update_trackers_first_marker (cf : Z) (Hcf : 0 ≤ cf) (t : Tracker)
    (rest ts' tsi' : list Tracker) (f f' fi' : Frame)
    (pos posi pos' posi' : ndarray) (s s' si si' : pstate) :
  wf_ndarray pos → wf_ndarray posi →
  update_trackers tracker_update rectangle cf 0 (t :: rest) f pos s
    = (s', Returned (ts', f', pos')) →
  update_trackers tracker_update rectangle cf 0 [t] f posi si
    = (si', Returned (tsi', fi', posi')) →
  (∃ rest', ts' = (tracker_update t f).1 :: rest') ∧
  tsi' = [(tracker_update t f).1] ∧
  (cell2 pos (Z.to_nat cf) 0 = cell2 posi (Z.to_nat cf) 0 →
   cell2 pos' (Z.to_nat cf) 0 = cell2 posi' (Z.to_nat cf) 0).
Proof.
  intros Hwf Hwfi Hrun Hruni.
  apply update_trackers_cons_inv in Hrun
    as (s1 & pos1 & f1 & rest' & -> & _ & Hrec & Hhead).
  apply update_trackers_cons_inv in Hruni
    as (si1 & posi1 & fi1 & resti & -> & _ & Hreci & Hheadi).
  injection Hreci as _ <- _ <-.
  apply update_trackers_spec in Hrec as (evs & _ & _ & _ & Hret); [|done].
  destruct (Hret rest' pos' eq_refl) as (_ & _ & _ & Hkeep & _).
  split; [by eexists|]. split; [done|]. intros Hsame.
  rewrite Hkeep by (right; lia).
  destruct ((tracker_update t f).2.1).
  - destruct Hhead as [Hset _]. destruct Hheadi as [Hseti _].
    rewrite (setitem2_lookup _ _ _ _ _ Hcf Hwf Hset).
    by rewrite (setitem2_lookup _ _ _ _ _ Hcf Hwfi Hseti).
  - destruct Hhead as [-> _]. by destruct Hheadi as [-> _].
Qed.

Lemma tracking_loop_first_marker (show : bool) (pending : list (option Frame)) :
  ∀ (p shown : nat) (t : Tracker) (rest : list Tracker)
    (pos posi a ai : ndarray) (s s' si si' : pstate),
  wf_ndarray pos → wf_ndarray posi →
  (∀ k, cell2 pos k 0 = cell2 posi k 0) →
  tracking_loop tracker_update rectangle waitKey show pending p shown (t :: rest)
    pos s = (s', Returned a) →
  tracking_loop tracker_update rectangle waitKey show pending p shown [t] posi si
    = (si', Returned ai) →
  ∀ k, cell2 a k 0 = cell2 ai k 0.
Proof.
  induction pending as [|[f|] pending IH];
    intros p shown t rest pos posi a ai s s' si si' Hwf Hwfi Hcells Hrun Hruni.
  - by injection Hrun as <- <-; injection Hruni as <- <-.
  - cbn [tracking_loop] in Hrun, Hruni.
    replace (Z.of_nat (S p) - 1) with (Z.of_nat p) in Hrun, Hruni by lia.
    apply bind_inv in Hrun as [(s1 & [[ts1 f1] pos1] & Hpass & Hrun)|(e & _ & [=])].
    apply bind_inv in Hruni as [(si1 & [[tsi1 fi1] posi1] & Hpassi & Hruni)|(e & _ & [=])].
    assert (0 ≤ Z.of_nat p) as Hp by lia.
    destruct (update_trackers_first_marker _ Hp _ _ _ _ _ _ _ _ _ _ _ _ _ _ _
                Hwf Hwfi Hpass Hpassi) as ([rest' ->] & -> & Hcell).
    apply update_trackers_spec in Hpass as (evs & _ & _ & _ & Hret); [|done].
    apply update_trackers_spec in Hpassi as (evsi & _ & _ & _ & Hreti); [|done].
    destruct (Hret _ pos1 eq_refl) as (_ & _ & Hwf1 & Hkeep & _).
    destruct (Hreti _ posi1 eq_refl) as (_ & _ & Hwfi1 & Hkeepi & _).
    assert (∀ k, cell2 pos1 k 0 = cell2 posi1 k 0) as Hcells1.
    { intros k. destruct (decide (k = Z.to_nat (Z.of_nat p))) as [->|Hk].
      - apply Hcell, Hcells.
      - rewrite Hkeep, Hkeepi by (by left). apply Hcells. }
    destruct show; [destruct (Z.land (waitKey shown) 255 =? 27)|].
    + injection Hrun as _ Ha. injection Hruni as _ Hai. subst a ai. exact Hcells1.
    + eapply IH; [| |exact Hcells1|exact Hrun|exact Hruni]; tauto.
    + eapply IH; [| |exact Hcells1|exact Hrun|exact Hruni]; tauto.
  - by injection Hrun as <- <-; injection Hruni as <- <-.
Qed.

(** X16. The first marker is tracked as if it were alone: its tracker is
    handed every frame as read, before any outline is drawn, so whenever
    a run over all markers and a run over marker 0 only (same region,
    same video, same keys) both return, the positions recorded for
    marker 0 are the same in both. *)
Theorem first_marker_is_tracked_as_if_alone (c : capture Frame)
    (num_stakes : nat) (show : bool) (s s' si si' : pstate) (a ai : ndarray) :
  (0 < num_stakes)%nat →
  track (PyCapture c) num_stakes show s = (s', Returned (Some a)) →
  track (PyCapture c) 1 show si = (si', Returned (Some ai)) →
  ∀ k, cell2 a k 0 = cell2 ai k 0.
Proof.
  intros Hn Hrun Hruni.
  apply track_objects_in_video_loop_from in Hrun
    as (f & c' & pos & Hread & Hzeros & Hloop).
  apply track_objects_in_video_loop_from in Hruni
    as (fi & ci' & posi & Hreadi & Hzerosi & Hloopi).
  rewrite Hread in Hreadi. injection Hreadi as <- <-.
  apply np_zeros_inv in Hzeros as (_ & _ & Hwf & Hcells).
  apply np_zeros_inv in Hzerosi as (_ & _ & Hwfi & Hcellsi).
  destruct num_stakes as [|n]; [lia|]. cbn [seq fmap list_fmap] in Hloop, Hloopi.
  eapply (tracking_loop_first_marker show (reads c'));
    [exact Hwf|exact Hwfi| |exact Hloop|exact Hloopi].
  intros k. rewrite Hcells, Hcellsi. repeat case_decide; try done; lia.
Qed.
End MoreFacts.

(** ** The further theorems at work on concrete videos *)

Lemma esc_cuts_the_video_short_witness :
  Z.land (Steady.esc_on 1 1) 255 = 27 ∧
  Steady.track 9 (Steady.esc_on 1) (PyCapture (Scripted.video 6 6)) 2 true init_state
  = Steady.track 9 (Steady.esc_on 1)
      (PyCapture (Capture (take 3 (reads (Scripted.video 6 6))) 0 6)) 2 true
      init_state.
Proof.
  split; [reflexivity|].
  apply (esc_cuts_the_video_short (Steady.tracker_init 9) Steady.tracker_update
           Steady.selectROI Steady.rectangle (Steady.esc_on 1) 1
           (Scripted.video 6 6) 2 init_state).
  reflexivity.
Defined.

Lemma found_marker_cell_holds_the_box_centre_witness :
  ∃ s' a e,
    Steady.track 1 Scripted.no_key (PyCapture (Scripted.video 3 3)) 1 false
      init_state = (s', Returned (Some a)) ∧
    trace s' !! 0%nat = Some e ∧ ev_success e = true ∧
    cell2 a 1 0 = Some [3; 5]%float ∧
    cell2 a (Z.to_nat (ev_frame e)) (ev_marker e) = Some (centre_cell (ev_bbox e)).
Proof.
  eexists _, _, _. split; [vm_compute; reflexivity|].
  split; [vm_compute; reflexivity|]. split; [reflexivity|].
  split; [vm_compute; reflexivity|].
  eapply (found_marker_cell_holds_the_box_centre (Steady.tracker_init 1)
            Steady.tracker_update Steady.selectROI Steady.rectangle
            Scripted.no_key (PyCapture (Scripted.video 3 3)) 1 false _ _ 0%nat);
    [vm_compute; reflexivity|vm_compute; reflexivity|reflexivity].
Defined.

Lemma cell_without_successful_update_is_zero_witness :
  ∃ s' a,
    Steady.track 1 Scripted.no_key (PyCapture (Scripted.video 3 5)) 1 false
      init_state = (s', Returned (Some a)) ∧
    ev_success <$> trace s' = [true; false] ∧
    cell2 a 4 0 = unset_cell (dim0 a) 1 4 0.
Proof.
  eexists _, _. split; [vm_compute; reflexivity|].
  split; [vm_compute; reflexivity|].
  eapply (cell_without_successful_update_is_zero (Steady.tracker_init 1)
            Steady.tracker_update Steady.selectROI Steady.rectangle
            Scripted.no_key (PyCapture (Scripted.video 3 5)) 1 false);
    [vm_compute; reflexivity|].
  intros e He Hok [Hk _]. vm_compute in He.
  apply elem_of_cons in He as [->|He]; [vm_compute in Hk; lia|].
  apply elem_of_cons in He as [->|He]; [done|].
  by apply elem_of_nil in He.
Defined.

Lemma every_tracker_updated_on_every_frame_witness :
  ∃ s' a m,
    Steady.track 1 Scripted.no_key (PyCapture (Scripted.video 4 4)) 2 false
      init_state = (s', Returned (Some a)) ∧
    m = 3%nat ∧
    (λ e, (ev_frame e, ev_marker e)) <$> trace s' = passes 1 m 2 ∧
    ev_success <$> trace s' = [true; true; false; false; false; false].
Proof.
  eexists _, _.
  destruct (every_tracker_updated_on_every_frame (Steady.tracker_init 1)
              Steady.tracker_update Steady.selectROI Steady.rectangle
              Scripted.no_key (Scripted.video 4 4) 2 false
              (Steady.track 1 Scripted.no_key (PyCapture (Scripted.video 4 4)) 2
                 false init_state).1
              (NDArray (4, 2, 2)%nat
                 [[[f0; f0]; [f0; f0]]; [[3; 5]; [3; 5]]%float;
                  [[f0; f0]; [f0; f0]]; [[f0; f0]; [f0; f0]]]))
    as (m & _ & Hall & Hevs); [vm_compute; reflexivity|].
  exists m. split; [vm_compute; reflexivity|].
  split; [exact (Hall eq_refl)|]. split; [exact Hevs|]. vm_compute. reflexivity.
Defined.


Lemma unrectified_never_reaches_the_first_two_rows_witness :
  ∃ s' w,
    Steady.unrectified 2 Scripted.no_key (Scripted.video 4 4)
      [((0, 0), (3, 4))%float] "videos/test_vid1.mp4" 1 false init_state
    = (s', Returned w) ∧
    Forall (λ e, 0 + 2 ≤ ev_frame e) (trace s') ∧
    ∃ traj, true_divide_vec traj (derive_scale [((0, 0), (3, 4))%float]) = Returned w ∧
      ∀ k i, (k < 0 + 2)%nat → cell2 traj k i = unset_cell (dim0 traj) 1 k i.
Proof.
  eexists _, _. split; [vm_compute; reflexivity|].
  destruct (unrectified_never_reaches_the_first_two_rows (Steady.tracker_init 2)
              Steady.tracker_update Steady.selectROI Steady.rectangle
              Scripted.no_key (λ _, Scripted.video 4 4)
              (λ _ _, [((0, 0), (3, 4))%float]) "videos/test_vid1.mp4" 1 false
              _ _ ltac:(done) eq_refl) as [Hevs Hret].
  split; [exact Hevs|]. exact (Hret _ eq_refl).
Defined.

Lemma unrectified_returns_only_for_one_or_two_stakes_witness :
  (∃ e, (Steady.unrectified 2 Scripted.no_key (Scripted.video 4 4)
           [((0, 0), (3, 4)); ((0, 0), (6, 8)); ((0, 0), (5, 12))]%float
           "videos/test_vid1.mp4" 3 false init_state).2 = Raised e) ∧
  ∀ s1 traj,
    Steady.track 2 Scripted.no_key
      (PyCapture (cap_read (Scripted.video 4 4)).2) 3 false init_state
    = (s1, Returned (Some traj)) →
    Steady.unrectified 2 Scripted.no_key (Scripted.video 4 4)
      [((0, 0), (3, 4)); ((0, 0), (6, 8)); ((0, 0), (5, 12))]%float
      "videos/test_vid1.mp4" 3 false init_state
    = (s1, Raised ValueError).
Proof.
  destruct (unrectified_returns_only_for_one_or_two_stakes (Steady.tracker_init 2)
              Steady.tracker_update Steady.selectROI Steady.rectangle
              Scripted.no_key (λ _, Scripted.video 4 4)
              (λ _ _, [((0, 0), (3, 4)); ((0, 0), (6, 8)); ((0, 0), (5, 12))]%float)
              "videos/test_vid1.mp4" 3 false init_state)
    as (Hraises & _ & Hthree); [simpl; lia..|].
  split; [exact Hraises|]. exact (Hthree ltac:(done)).
Defined.

Lemma unrectified_divides_by_coordinate_witness :
  ∃ s1 traj w,
    Steady.track 2 Scripted.no_key
      (PyCapture (cap_read (Scripted.video 4 4)).2) 2 false init_state
    = (s1, Returned (Some traj)) ∧
    Steady.unrectified 2 Scripted.no_key (Scripted.video 4 4)
      [((0, 0), (3, 4)); ((0, 0), (6, 8))]%float "videos/test_vid1.mp4" 2 false
      init_state = (s1, Returned w) ∧
    shape w = shape traj ∧
    ∀ k i,
      cell w k i 0 = (λ x, (x / linalg_norm (0 - 3, 0 - 4))%float) <$> cell traj k i 0 ∧
      cell w k i 1 = (λ y, (y / linalg_norm (0 - 6, 0 - 8))%float) <$> cell traj k i 1.
Proof.
  eexists _, _. 
  destruct (unrectified_divides_by_coordinate (Steady.tracker_init 2)
              Steady.tracker_update Steady.selectROI Steady.rectangle
              Scripted.no_key (λ _, Scripted.video 4 4)
              (λ _ _, [((0, 0), (3, 4)); ((0, 0), (6, 8))]%float)
              "videos/test_vid1.mp4" 2 false init_state _ _ eq_refl) as [_ Htwo].
  destruct (Htwo _ _ eq_refl) as (w & Hrun & Hshape & Hcells).
  exists w. split; [vm_compute; reflexivity|]. split; [exact Hrun|].
  split; [exact Hshape|exact Hcells].
Defined.

Lemma unrectified_without_a_second_frame_raises_witness :
  [((0, 0), (3, 4))%float] ≠ [] ∧
  (cap_read (cap_read (Scripted.video 1 1)).2).1 = None ∧
  Steady.unrectified 2 Scripted.no_key (Scripted.video 1 1)
    [((0, 0), (3, 4))%float] "videos/test_vid1.mp4" 1 false init_state
  = (PState ["Error: Could not read video frame."] [] [], Raised TypeError).
Proof.
  split; [done|]. split; [reflexivity|].
  apply (unrectified_without_a_second_frame_raises (Steady.tracker_init 2)
           Steady.tracker_update Steady.selectROI Steady.rectangle
           Scripted.no_key (λ _, Scripted.video 1 1)
           (λ _ _, [((0, 0), (3, 4))%float]) "videos/test_vid1.mp4" 1 false
           init_state).
  - done.
  - reflexivity.
Defined.

Lemma loop_returns_when_the_buffer_has_room_witness :
  let buffer := NDArray (9, 2, 2)%nat (replicate 9 (replicate 2 [f0; f0])) in
  (∀ t f, box_drawable (Steady.tracker_update t f).2.2) ∧
  ∃ s' a,
    tracking_loop Steady.tracker_update Steady.rectangle (Steady.esc_on 3) true
      (Some <$> seq 1 4) 1 0 [2; 2]%nat buffer init_state = (s', Returned a) ∧
    shape a = shape buffer.
Proof.
  intros buffer.
  assert (∀ t f, box_drawable (Steady.tracker_update t f).2.2) as Hboxes.
  { intros [|t] f.
    - exists 0, 0, 0, 0. by vm_compute.
    - exists 1, 2, 5, 8. by vm_compute. }
  split; [exact Hboxes|].
  apply (loop_returns_when_the_buffer_has_room Steady.tracker_update
           Steady.rectangle (Steady.esc_on 3) true (Some <$> seq 1 4) Hboxes
           1%nat 0%nat [2; 2]%nat buffer init_state).
  - vm_compute. lia.
  - vm_compute. lia.
  - reflexivity.
Defined.

Lemma program_saves_the_rows_from_index_two_witness :
  ∃ s' s1 w lines,
    Steady.program 2 Scripted.no_key (Scripted.video 5 5)
      [((0, 0), (3, 4)); ((0, 0), (6, 8))]%float init_state = (s', Returned tt) ∧
    Steady.unrectified 2 Scripted.no_key (Scripted.video 5 5)
      [((0, 0), (3, 4)); ((0, 0), (6, 8))]%float "videos/test_vid1.mp4" 2 true
      init_state = (s1, Returned w) ∧
    files s' = [("graph.png", Figure "Time" "Position (m)" lines);
                ("array.npy", Npy (rows_from 2 w))] ∧
    shape (rows_from 2 w) = ((dim0 w - 2)%nat, 2%nat, 2%nat) ∧
    length lines = 2%nat.
Proof.
  eexists _.
  pose proof (program_saves_the_rows_from_index_two (Steady.tracker_init 2)
                Steady.tracker_update Steady.selectROI Steady.rectangle
                Scripted.no_key (λ _, Scripted.video 5 5)
                (λ _ _, [((0, 0), (3, 4)); ((0, 0), (6, 8))]%float)
                init_state _ (Returned tt) eq_refl) as H.
  destruct H as (s1 & w & lines & Hun & Hfiles & Hshape & _ & Hlen & _).
  exists s1, w, lines. split; [vm_compute; reflexivity|]. split; [exact Hun|].
  split; [exact Hfiles|]. split; [exact Hshape|exact Hlen].
Defined.

Lemma first_marker_is_tracked_as_if_alone_witness :
  ∃ s' a si' ai,
    Pixels.track [(0, 0, 2, 2); (2, 1, 1, 1)] (PyCapture Pixels.still_video) 2
      false init_state = (s', Returned (Some a)) ∧
    Pixels.track [(0, 0, 2, 2); (2, 1, 1, 1)] (PyCapture Pixels.still_video) 1
      false init_state = (si', Returned (Some ai)) ∧
    cell2 a 1 0 = Some [1; 1]%float ∧
    ∀ k, cell2 a k 0 = cell2 ai k 0.
Proof.
  eexists _, _, _, _. split; [vm_compute; reflexivity|].
  split; [vm_compute; reflexivity|]. split; [vm_compute; reflexivity|].
  eapply (first_marker_is_tracked_as_if_alone Pixels.tracker_init
            Pixels.tracker_update
            (Pixels.selectROI [(0, 0, 2, 2); (2, 1, 1, 1)]) Pixels.rectangle
            (λ _, -1) Pixels.still_video 2 false init_state _ init_state);
    [lia|vm_compute; reflexivity|vm_compute; reflexivity].
Defined.

Lemma markers_independent_when_drawing_is_invisible_witness :
  (∀ f p q, Scripted.rectangle f p q = f) ∧
  ∃ s' a s1' a1,
    Scripted.track Scripted.found_then_lost Scripted.no_key
      (PyCapture (Scripted.video 3 3)) 2 false init_state
    = (s', Returned (Some a)) ∧
    track_objects_in_video (Scripted.tracker_init Scripted.found_then_lost)
      Scripted.tracker_update (λ _, Scripted.selectROI 1) Scripted.rectangle
      Scripted.no_key (PyCapture (Scripted.video 3 3)) 1 false init_state
    = (s1', Returned (Some a1)) ∧
    ∀ k, cell2 a k 1 = cell2 a1 k 0.
Proof.
  split; [done|].
  eexists _, _, _, _. split; [vm_compute; reflexivity|].
  split; [vm_compute; reflexivity|].
  eapply (markers_independent_when_drawing_is_invisible
            (Scripted.tracker_init Scripted.found_then_lost) Scripted.tracker_update
            Scripted.selectROI Scripted.rectangle Scripted.no_key (λ _ _ _, eq_refl)
            (Scripted.video 3 3) 2 1 false init_state _ init_state);
    [lia|vm_compute; reflexivity|vm_compute; reflexivity].
Defined.
